(** * A USB bulk streaming session: [scripts/archive/test-iokit-ep2.c]

    The program is one [main] that talks to the platform USB subsystem
    (IOKit) through a fixed sequence of calls: it matches a device by
    vendor and product identifier, binds and opens the device interface,
    selects configuration 1, binds and opens the first interface, lists
    the pipes, writes one DMX frame to pipes 1 and 2, streams 200 frames
    to pipe 1 and finally closes and releases what it acquired.

    The embedding is shallow.  Every call that leaves the program is a
    constructor of [call]; what the platform answers is chosen by an
    [oracle] that sees the whole history of the session, so a theorem
    quantified over oracles holds for every behaviour of the device and
    of the operating system.  The program itself is a term of a small
    monad that threads the history and stops at a C [return], at the
    dereference of a NULL interface pointer, or when the fuel of the one
    loop without a variant is spent.

    The file has three parts: the program and the vocabulary of the
    statements; the lemmas and tactics that run the program one
    statement at a time; the theorems, first on the two loops, then on
    whole sessions. *)

From Stdlib Require Import String ZArith List Bool Lia.
Import ListNotations.
Open Scope string_scope.
Open Scope list_scope.
Open Scope Z_scope.

(** ** Values of the C program *)

(** Pointers ([IOCFPlugInInterface **], [IOUSBDeviceInterface **], ...)
    and Mach ports ([io_iterator_t], [io_service_t]) are integers; the
    NULL pointer and [IO_OBJECT_NULL] are 0. *)
Definition handle := Z.
Definition NULL : handle := 0.

(** [kern_return_t], [IOReturn] and [HRESULT] are 32-bit integers that
    the program only compares with zero and prints. *)
Definition kern_return_t := Z.
Definition KERN_SUCCESS : kern_return_t := 0.
Definition kIOReturnSuccess : kern_return_t := 0.

Definition VID : Z := 0x15E4.
Definition PID : Z := 0x0053.

(** A value stored into a [UInt8] object. *)
Definition UInt8 (z : Z) : Z := z mod 256.

(** Constants of the IOKit headers that the program passes through. *)
Inductive class_name := kIOUSBDeviceClassName.
Inductive dict_key := kUSBVendorID | kUSBProductID.
Inductive plugin_type :=
  kIOUSBDeviceUserClientTypeID | kIOUSBInterfaceUserClientTypeID.
Inductive interface_id :=
  kIOUSBDeviceInterfaceID | kIOUSBInterfaceInterfaceID.
Inductive find_field := kIOUSBFindInterfaceDontCare | FindValue (v : Z).

Record IOUSBFindInterfaceRequest := {
  bInterfaceClass : find_field;
  bInterfaceSubClass : find_field;
  bInterfaceProtocol : find_field;
  bAlternateSetting : find_field
}.

(** The five out-parameters of [GetPipeProperties], as the program
    finds them after the call. *)
Record pipe_properties := {
  direction : Z;
  number : Z;
  transferType : Z;
  maxPacketSize : Z;
  interval : Z
}.

(** An argument of [printf]: [%x] and [%d] take an integer, [%s] a
    string. *)
Inductive printf_arg := Int (z : Z) | Str (s : string).

(** ** Calls and answers *)

Inductive call : Type :=
| printf (format : string) (args : list printf_arg)
| IOServiceMatching (name : class_name)
| CFNumberCreate (value : Z)
| CFDictionarySetValue (dict : handle) (key : dict_key) (value : handle)
| IOServiceGetMatchingServices (matching : handle)
| IOIteratorNext (iterator : handle)
| IOObjectRelease (object : handle)
| IOCreatePlugInInterfaceForService (service : handle) (type : plugin_type)
| QueryInterface (plugIn : handle) (iid : interface_id)
| PlugInRelease (plugIn : handle)
| USBDeviceOpen (dev : handle)
| USBDeviceOpenSeize (dev : handle)
| SetConfiguration (dev : handle) (configNum : Z)
| CreateInterfaceIterator (dev : handle) (req : IOUSBFindInterfaceRequest)
| USBDeviceClose (dev : handle)
| DeviceRelease (dev : handle)
| USBInterfaceOpen (intf : handle)
| GetNumEndpoints (intf : handle)
| GetPipeProperties (intf : handle) (pipeRef : Z)
| WritePipe (intf : handle) (pipeRef : Z) (buf : list Z)
| USBInterfaceClose (intf : handle)
| InterfaceRelease (intf : handle)
| usleep (useconds : Z).

(** What a call gives back to the program: its return value, paired
    with the value the program finds in the out-parameter afterwards.
    The program does not initialise [iterator], [numEndpoints] or the
    pipe properties, so after a call that failed without writing them
    that value is arbitrary, like every other answer.  Return values
    that the program drops are [unit]. *)
Definition resp (c : call) : Type :=
  match c with
  | IOServiceMatching _ | CFNumberCreate _ | IOIteratorNext _ => handle
  | IOServiceGetMatchingServices _
  | IOCreatePlugInInterfaceForService _ _
  | QueryInterface _ _
  | CreateInterfaceIterator _ _ => (Z * handle)%type
  | USBDeviceOpen _ | USBDeviceOpenSeize _ | SetConfiguration _ _
  | USBInterfaceOpen _ | WritePipe _ _ _ => kern_return_t
  | GetNumEndpoints _ => (kern_return_t * Z)%type
  | GetPipeProperties _ _ => (kern_return_t * pipe_properties)%type
  | _ => unit
  end.

Record event := Ev { ev_call : call; ev_resp : resp ev_call }.

Definition trace := list event.

(** The platform: given the session so far, the answer to the next
    call. *)
Definition oracle := trace -> forall c : call, resp c.

(** ** The monad of the program *)

Inductive outcome (A : Type) : Type :=
| Next (a : A) (t : trace)       (* control reaches the next statement *)
| Return (code : Z) (t : trace)  (* [main] has returned [code] *)
| Fault (t : trace)              (* a NULL pointer was dereferenced *)
| OutOfFuel (t : trace).         (* still looping *)
Arguments Next {A} a t.
Arguments Return {A} code t.
Arguments Fault {A} t.
Arguments OutOfFuel {A} t.

Definition trace_of {A} (r : outcome A) : trace :=
  match r with
  | Next _ t | Return _ t | Fault t | OutOfFuel t => t
  end.

Definition M (A : Type) : Type := oracle -> trace -> outcome A.

Definition ret {A} (a : A) : M A := fun _ t => Next a t.

Definition bind {A B} (m : M A) (k : A -> M B) : M B :=
  fun o t =>
    match m o t with
    | Next a t' => k a o t'
    | Return code t' => Return code t'
    | Fault t' => Fault t'
    | OutOfFuel t' => OutOfFuel t'
    end.

Definition return_ {A} (code : Z) : M A := fun _ t => Return code t.
Definition fault {A} : M A := fun _ t => Fault t.
Definition out_of_fuel {A} : M A := fun _ t => OutOfFuel t.

Definition do_call (c : call) : M (resp c) :=
  fun o t => let r := o t c in Next r (t ++ [Ev c r]).

(** A method called through an interface pointer [p], as in
    [p[0]->USBDeviceOpen(p)], reads through [p] first. *)
Definition method (p : handle) (c : call) : M (resp c) :=
  if p =? NULL then fault else do_call c.

Declare Scope prog_scope.
Delimit Scope prog_scope with prog.
Notation "x <- m ;; k" := (bind m (fun x => k))
  (at level 61, m at next level, right associativity) : prog_scope.
Notation "' pat <- m ;; k" := (bind m (fun x => match x with pat => k end))
  (at level 61, pat pattern, m at next level, right associativity) : prog_scope.
Notation "m ;; k" := (bind m (fun _ => k))
  (at level 61, right associativity) : prog_scope.
Open Scope prog_scope.

(** ** The program *)

(** Lines 162-168: the DMX frame. *)
Fixpoint store (buf : list Z) (i : nat) (v : Z) : list Z :=
  match buf, i with
  | [], _ => []
  | _ :: rest, O => UInt8 v :: rest
  | b :: rest, S j => b :: store rest j v
  end.

Definition dmx : list Z :=
  let dmx := repeat 0 514%nat in               (* memset(dmx, 0, sizeof(dmx)) *)
  let dmx := store dmx 0%nat 255 in            (* CH1: dimmer *)
  let dmx := store dmx 1%nat 225 in            (* CH2: manual mode *)
  let dmx := store dmx 4%nat 255 in            (* CH5: red *)
  let dmx := store dmx 512%nat 0xFF in         (* LED1 *)
  let dmx := store dmx 513%nat 0xFF in         (* LED2 *)
  dmx.

Arguments dmx : simpl never.

Definition OK_or_FAIL (kr : kern_return_t) : printf_arg :=
  Str (if kr =? kIOReturnSuccess then "OK" else "FAIL").

(** Lines 31-57: match the device. *)
Definition find_device : M handle :=
  do_call (printf "=== IOKit Direct USB EP 0x02 Test ===\n\n" []) ;;
  matchingDict <- do_call (IOServiceMatching kIOUSBDeviceClassName) ;;
  if matchingDict =? NULL then
    do_call (printf "Can't create matching dict\n" []) ;;
    return_ 1
  else
  vid <- do_call (CFNumberCreate VID) ;;
  do_call (CFDictionarySetValue matchingDict kUSBVendorID vid) ;;
  pid <- do_call (CFNumberCreate PID) ;;
  do_call (CFDictionarySetValue matchingDict kUSBProductID pid) ;;
  '(kr, iterator) <- do_call (IOServiceGetMatchingServices matchingDict) ;;
  if negb (kr =? KERN_SUCCESS) then
    do_call (printf "IOServiceGetMatchingServices failed: 0x%x\n" [Int kr]) ;;
    return_ 1
  else
  usbDevice <- do_call (IOIteratorNext iterator) ;;
  do_call (IOObjectRelease iterator) ;;
  if usbDevice =? NULL then
    do_call (printf "Device not found!\n" []) ;;
    return_ 1
  else
  do_call (printf "Found device\n" []) ;;
  ret usbDevice.

(** Lines 59-76: the device interface. *)
Definition get_device_interface (usbDevice : handle) : M handle :=
  '(kr, plugInInterface) <-
    do_call (IOCreatePlugInInterfaceForService usbDevice
               kIOUSBDeviceUserClientTypeID) ;;
  do_call (IOObjectRelease usbDevice) ;;
  if negb (kr =? KERN_SUCCESS) || (plugInInterface =? NULL) then
    do_call (printf "IOCreatePlugInInterface failed: 0x%x\n" [Int kr]) ;;
    return_ 1
  else
  '(result, deviceInterface) <-
    method plugInInterface
      (QueryInterface plugInInterface kIOUSBDeviceInterfaceID) ;;
  method plugInInterface (PlugInRelease plugInInterface) ;;
  if negb (result =? 0) || (deviceInterface =? NULL) then
    do_call (printf "QueryInterface failed\n" []) ;;
    return_ 1
  else
  do_call (printf "Got device interface\n" []) ;;
  ret deviceInterface.

(** Lines 78-90: open the device, seizing it when the plain open
    fails. *)
Definition open_device (deviceInterface : handle) : M unit :=
  kr <- method deviceInterface (USBDeviceOpen deviceInterface) ;;
  (if negb (kr =? kIOReturnSuccess) then
     do_call (printf "USBDeviceOpen failed: 0x%x\n" [Int kr]) ;;
     kr <- method deviceInterface (USBDeviceOpenSeize deviceInterface) ;;
     if negb (kr =? kIOReturnSuccess) then
       do_call (printf "USBDeviceOpenSeize also failed: 0x%x\n" [Int kr]) ;;
       method deviceInterface (DeviceRelease deviceInterface) ;;
       return_ 1
     else ret tt
   else ret tt) ;;
  do_call (printf "Device opened\n" []) ;;
  ret tt.

(** Lines 92-94. *)
Definition set_configuration (deviceInterface : handle) : M unit :=
  kr <- method deviceInterface (SetConfiguration deviceInterface 1) ;;
  do_call (printf "SetConfiguration(1): 0x%x\n" [Int kr]) ;;
  ret tt.

Definition request : IOUSBFindInterfaceRequest := {|
  bInterfaceClass := kIOUSBFindInterfaceDontCare;
  bInterfaceSubClass := kIOUSBFindInterfaceDontCare;
  bInterfaceProtocol := kIOUSBFindInterfaceDontCare;
  bAlternateSetting := kIOUSBFindInterfaceDontCare
|}.

(** The two calls that every failure branch after the device was opened
    repeats before it returns. *)
Definition close_device {A} (deviceInterface : handle) : M A :=
  method deviceInterface (USBDeviceClose deviceInterface) ;;
  method deviceInterface (DeviceRelease deviceInterface) ;;
  return_ 1.

(** Lines 96-118: the first interface of the device. *)
Definition find_interface (deviceInterface : handle) : M handle :=
  '(kr, iterator) <-
    method deviceInterface (CreateInterfaceIterator deviceInterface request) ;;
  if negb (kr =? kIOReturnSuccess) then
    do_call (printf "CreateInterfaceIterator failed: 0x%x\n" [Int kr]) ;;
    close_device deviceInterface
  else
  usbInterface <- do_call (IOIteratorNext iterator) ;;
  do_call (IOObjectRelease iterator) ;;
  if usbInterface =? NULL then
    do_call (printf "No interface found!\n" []) ;;
    close_device deviceInterface
  else
  ret usbInterface.

(** Lines 120-141: the interface interface.  Unlike line 63, line 124
    tests [kr] alone. *)
Definition get_interface_interface (deviceInterface usbInterface : handle)
  : M handle :=
  '(kr, plugInInterface) <-
    do_call (IOCreatePlugInInterfaceForService usbInterface
               kIOUSBInterfaceUserClientTypeID) ;;
  do_call (IOObjectRelease usbInterface) ;;
  if negb (kr =? kIOReturnSuccess) then
    do_call (printf "IOCreatePlugIn for interface failed: 0x%x\n" [Int kr]) ;;
    close_device deviceInterface
  else
  '(result, interfaceInterface) <-
    method plugInInterface
      (QueryInterface plugInInterface kIOUSBInterfaceInterfaceID) ;;
  method plugInInterface (PlugInRelease plugInInterface) ;;
  if negb (result =? 0) || (interfaceInterface =? NULL) then
    do_call (printf "QueryInterface for interface failed\n" []) ;;
    close_device deviceInterface
  else
  do_call (printf "Got interface interface\n" []) ;;
  ret interfaceInterface.

(** Lines 143-145. *)
Definition open_interface (interfaceInterface : handle) : M unit :=
  kr <- method interfaceInterface (USBInterfaceOpen interfaceInterface) ;;
  do_call (printf "USBInterfaceOpen: 0x%x\n" [Int kr]) ;;
  ret tt.

(** Lines 152-159: [for (UInt8 i = 1; i <= numEndpoints; i++)].  The
    counter is a [UInt8], so [i++] wraps from 255 to 0; the loop has no
    variant and runs on fuel. *)
Fixpoint pipe_loop (fuel : nat) (interfaceInterface : handle)
    (i numEndpoints : Z) : M unit :=
  match fuel with
  | O => out_of_fuel
  | S fuel' =>
      if i <=? numEndpoints then
        '(kr, p) <-
          method interfaceInterface (GetPipeProperties interfaceInterface i) ;;
        do_call (printf
          "  Pipe %d: direction=%d number=%d type=%d maxPkt=%d (kr=0x%x)\n"
          [Int i; Int (direction p); Int (number p); Int (transferType p);
           Int (maxPacketSize p); Int kr]) ;;
        pipe_loop fuel' interfaceInterface (UInt8 (i + 1)) numEndpoints
      else ret tt
  end.

(** Lines 147-159. *)
Definition get_endpoint_info (fuel : nat) (interfaceInterface : handle)
  : M unit :=
  '(kr, n) <- method interfaceInterface (GetNumEndpoints interfaceInterface) ;;
  let numEndpoints := UInt8 n in
  do_call (printf "NumEndpoints: %d (kr=0x%x)\n" [Int numEndpoints; Int kr]) ;;
  pipe_loop fuel interfaceInterface 1 numEndpoints.

(** Lines 170-177: one write to pipe 1, one to pipe 2. *)
Definition try_pipes (interfaceInterface : handle) : M unit :=
  do_call (printf "\n--- Writing to pipe 1 (EP 0x01) ---\n" []) ;;
  kr <- method interfaceInterface (WritePipe interfaceInterface 1 dmx) ;;
  do_call (printf "WritePipe(1): 0x%x (%s)\n" [Int kr; OK_or_FAIL kr]) ;;
  do_call (printf "\n--- Writing to pipe 2 (EP 0x02 - doesn't exist) ---\n" []) ;;
  kr <- method interfaceInterface (WritePipe interfaceInterface 2 dmx) ;;
  do_call (printf "WritePipe(2): 0x%x (%s)\n" [Int kr; OK_or_FAIL kr]) ;;
  ret tt.

(** Lines 182-189: [for (int i = 0; i < frameCount; i++)], by recursion
    on the frames still to send, [frameCount - i]. *)
Fixpoint frame_loop (remaining : nat) (interfaceInterface : handle)
    (pipeRef : Z) (frame : list Z) (i : Z) : M unit :=
  match remaining with
  | O => ret tt
  | S remaining' =>
      kr <- method interfaceInterface
              (WritePipe interfaceInterface pipeRef frame) ;;
      if negb (kr =? kIOReturnSuccess) && (i =? 0) then
        do_call (printf "  WritePipe failed: 0x%x\n" [Int kr]) ;;
        ret tt                                             (* break *)
      else
        do_call (usleep 25000) ;;                          (* 25ms = 40Hz *)
        frame_loop remaining' interfaceInterface pipeRef frame (i + 1)
  end.

(** Lines 179-190. *)
Definition send_frames (interfaceInterface : handle) : M unit :=
  do_call (printf "\n--- Sending 200 frames to pipe 1 (5 sec) ---\n" []) ;;
  do_call (printf ">>> WATCH THE LASER AND LED <<<\n" []) ;;
  frame_loop 200 interfaceInterface 1 dmx 0 ;;
  do_call (printf "  Done\n" []) ;;
  ret tt.

(** Lines 192-196. *)
Definition cleanup (deviceInterface interfaceInterface : handle) : M unit :=
  method interfaceInterface (USBInterfaceClose interfaceInterface) ;;
  method interfaceInterface (InterfaceRelease interfaceInterface) ;;
  method deviceInterface (USBDeviceClose deviceInterface) ;;
  method deviceInterface (DeviceRelease deviceInterface) ;;
  ret tt.

Definition main (fuel : nat) : M unit :=
  usbDevice <- find_device ;;
  deviceInterface <- get_device_interface usbDevice ;;
  open_device deviceInterface ;;
  set_configuration deviceInterface ;;
  usbInterface <- find_interface deviceInterface ;;
  interfaceInterface <- get_interface_interface deviceInterface usbInterface ;;
  open_interface interfaceInterface ;;
  get_endpoint_info fuel interfaceInterface ;;
  try_pipes interfaceInterface ;;
  send_frames interfaceInterface ;;
  cleanup deviceInterface interfaceInterface ;;
  do_call (printf "\nDone!\n" []) ;;
  return_ 0.

(** The session against a given platform. *)
Definition run (fuel : nat) (o : oracle) : outcome unit := main fuel o [].

(** ** Platforms to run the session against *)

Definition is_write (e : event) : bool :=
  match ev_call e with WritePipe _ _ _ => true | _ => false end.

Definition is_sleep (e : event) : bool :=
  match ev_call e with usleep _ => true | _ => false end.

(** A platform on which the device is present and every acquisition
    call succeeds; the statuses that the program does not act upon (or
    acts upon only once) are left open. *)
Record scenario := {
  open_status : kern_return_t;
  seize_status : kern_return_t;
  configuration_status : kern_return_t;
  interface_open_status : kern_return_t;
  endpoints : Z;
  (* status of a write, from the number of writes before it and its pipe *)
  write_status : nat -> Z -> kern_return_t
}.

Definition platform (s : scenario) : oracle :=
  fun t c =>
    match c as c0 return resp c0 with
    | printf _ _ => tt
    | IOServiceMatching _ => 0x100
    | CFNumberCreate v => 0x10000 + v
    | CFDictionarySetValue _ _ _ => tt
    | IOServiceGetMatchingServices _ => (KERN_SUCCESS, 0x200)
    | IOIteratorNext it => if it =? 0x200 then 0x400 else 0x500
    | IOObjectRelease _ => tt
    | IOCreatePlugInInterfaceForService _ kIOUSBDeviceUserClientTypeID =>
        (KERN_SUCCESS, 0x1400)
    | IOCreatePlugInInterfaceForService _ kIOUSBInterfaceUserClientTypeID =>
        (KERN_SUCCESS, 0x1500)
    | QueryInterface _ kIOUSBDeviceInterfaceID => (0, 0x2400)
    | QueryInterface _ kIOUSBInterfaceInterfaceID => (0, 0x2500)
    | PlugInRelease _ => tt
    | USBDeviceOpen _ => open_status s
    | USBDeviceOpenSeize _ => seize_status s
    | SetConfiguration _ _ => configuration_status s
    | CreateInterfaceIterator _ _ => (kIOReturnSuccess, 0x300)
    | USBDeviceClose _ => tt
    | DeviceRelease _ => tt
    | USBInterfaceOpen _ => interface_open_status s
    | GetNumEndpoints _ => (kIOReturnSuccess, endpoints s)
    | GetPipeProperties _ i =>
        (kIOReturnSuccess,
         {| direction := 0; number := i; transferType := 2;
            maxPacketSize := 64; interval := 0 |})
    | WritePipe _ pipeRef _ =>
        write_status s (length (filter is_write t)) pipeRef
    | USBInterfaceClose _ => tt
    | InterfaceRelease _ => tt
    | usleep _ => tt
    end.

(** The device of the end-to-end scenario: one bulk-OUT pipe, at index
    1; a write to any other pipe is refused. *)
Definition kIOUSBUnknownPipeErr : kern_return_t := 0xe0004061 - 2 ^ 32.

Definition one_pipe : scenario := {|
  open_status := kIOReturnSuccess;
  seize_status := kIOReturnSuccess;
  configuration_status := kIOReturnSuccess;
  interface_open_status := kIOReturnSuccess;
  endpoints := 1;
  write_status := fun _ pipeRef =>
    if pipeRef =? 1 then kIOReturnSuccess else kIOUSBUnknownPipeErr
|}.

(** ** Vocabulary of the statements *)

Definition is_query (e : event) : bool :=
  match ev_call e with GetPipeProperties _ _ => true | _ => false end.

(** The calls of the pipe loop (lines 152-159) on the interface [h]: the
    pipe queries and their prints. *)
Definition is_listing (h : handle) (e : event) : bool :=
  match ev_call e with
  | printf format _ =>
      String.eqb format
        "  Pipe %d: direction=%d number=%d type=%d maxPkt=%d (kr=0x%x)\n"
  | GetPipeProperties h' _ => h' =? h
  | _ => false
  end.

(** The calls of the frame loop (lines 182-189): writes, sleeps and the
    print of a failed write. *)
Definition is_streaming (h : handle) (e : event) : bool :=
  match ev_call e with
  | printf format _ => String.eqb format "  WritePipe failed: 0x%x\n"
  | usleep _ => true
  | WritePipe h' _ _ => h' =? h
  | _ => false
  end.

(** The calls of either loop. *)
Definition is_io (h : handle) (e : event) : bool :=
  is_listing h e || is_streaming h e.

(** The pipe indices [i, i+1, ..., i+len-1]. *)
Definition indices (i : Z) (len : nat) : list Z :=
  map (fun k => i + Z.of_nat k) (seq 0 len).


(** The calls of [n] iterations of the frame loop that do not break. *)
Definition frame_calls (h : handle) (pipeRef : Z) (frame : list Z) (n : nat)
  : list call :=
  concat (repeat [WritePipe h pipeRef frame; usleep 25000] n).

(** A status of refusal, for the calls whose failure the program only
    prints. *)
Definition kIOReturnError : kern_return_t := 0xe00002bc - 2 ^ 32.

(** Platforms that differ from [one_pipe] in one respect. *)

(** Every write is refused. *)
Definition no_pipe : scenario := {|
  open_status := kIOReturnSuccess;
  seize_status := kIOReturnSuccess;
  configuration_status := kIOReturnSuccess;
  interface_open_status := kIOReturnSuccess;
  endpoints := 0;
  write_status := fun _ _ => kIOUSBUnknownPipeErr
|}.

(** The first write of the frame loop succeeds, every later write of
    the session fails.  The loop's first write is the third of the
    session. *)
Definition kIOReturnNotResponding : kern_return_t := 0xe00002ed - 2 ^ 32.

Definition stalls_after_first_frame : scenario := {|
  open_status := kIOReturnSuccess;
  seize_status := kIOReturnSuccess;
  configuration_status := kIOReturnSuccess;
  interface_open_status := kIOReturnSuccess;
  endpoints := 1;
  write_status := fun k _ =>
    if (k <=? 2)%nat then kIOReturnSuccess else kIOReturnNotResponding
|}.

(** Another client holds the device: open and seize are refused. *)
Definition kIOReturnExclusiveAccess : kern_return_t := 0xe00002c5 - 2 ^ 32.

Definition refuses_open : scenario := {|
  open_status := kIOReturnExclusiveAccess;
  seize_status := kIOReturnExclusiveAccess;
  configuration_status := kIOReturnSuccess;
  interface_open_status := kIOReturnSuccess;
  endpoints := 1;
  write_status := fun _ _ => kIOReturnSuccess
|}.

(** The interface reports 255 endpoints. *)
Definition many_pipes : scenario := {|
  open_status := kIOReturnSuccess;
  seize_status := kIOReturnSuccess;
  configuration_status := kIOReturnSuccess;
  interface_open_status := kIOReturnSuccess;
  endpoints := 255;
  write_status := fun _ _ => kIOReturnSuccess
|}.

(** *** Handles *)

(** The handle a successful [QueryInterface] hands to the program,
    tagged with the interface it is a handle of. *)
Definition acquired (e : event) : option (interface_id * handle) :=
  match e with
  | Ev c r =>
      match c as c0 return resp c0 -> option (interface_id * handle) with
      | QueryInterface _ iid => fun '(result, p) =>
          if negb (result =? 0) || (p =? NULL) then None else Some (iid, p)
      | _ => fun _ => None
      end r
  end.

Definition acquisitions (t : trace) : list (interface_id * handle) :=
  flat_map (fun e => match acquired e with Some x => [x] | None => [] end) t.

(** The handle a call goes through, releases apart. *)
Definition uses (e : event) : option (interface_id * handle) :=
  match ev_call e with
  | USBDeviceOpen d | USBDeviceOpenSeize d | SetConfiguration d _
  | CreateInterfaceIterator d _ | USBDeviceClose d =>
      Some (kIOUSBDeviceInterfaceID, d)
  | USBInterfaceOpen i | GetNumEndpoints i | GetPipeProperties i _
  | WritePipe i _ _ | USBInterfaceClose i =>
      Some (kIOUSBInterfaceInterfaceID, i)
  | _ => None
  end.

Definition releases (e : event) : option (interface_id * handle) :=
  match ev_call e with
  | DeviceRelease d => Some (kIOUSBDeviceInterfaceID, d)
  | InterfaceRelease i => Some (kIOUSBInterfaceInterfaceID, i)
  | _ => None
  end.

(** A trace keeps the handle discipline from the stack [held] of
    handles acquired and not yet released: a call goes through a held
    handle only, a release releases the handle acquired last, and
    nothing is held when the trace ends. *)
Fixpoint disciplined (held : list (interface_id * handle)) (t : trace) : Prop :=
  match t with
  | [] => held = []
  | e :: t' =>
      match releases e with
      | Some x =>
          match held with
          | top :: rest => top = x /\ disciplined rest t'
          | [] => False
          end
      | None =>
          match uses e with Some x => In x held | None => True end /\
          disciplined
            (match acquired e with Some x => x :: held | None => held end) t'
      end
  end.

Definition is_teardown (e : event) : bool :=
  match ev_call e with
  | USBInterfaceClose _ | InterfaceRelease _
  | USBDeviceClose _ | DeviceRelease _ => true
  | _ => false
  end.

(** An open or seize of the device that succeeded. *)
Definition opens (e : event) : bool :=
  match e with
  | Ev c r =>
      match c as c0 return resp c0 -> bool with
      | USBDeviceOpen _ | USBDeviceOpenSeize _ => fun kr => kr =? kIOReturnSuccess
      | _ => fun _ => false
      end r
  end.

(** *** Failures *)

(** The answers on which the program gives up, by the step of the
    acquisition they end: matching (1), binding the device interface
    (2), opening the device (3), finding the interface (5), binding the
    interface interface (6).  A refused [USBDeviceOpen] is not among
    them, a refused [USBDeviceOpenSeize] is. *)
Definition fatal (e : event) : bool :=
  match e with
  | Ev c r =>
      match c as c0 return resp c0 -> bool with
      | IOServiceMatching _ => fun matchingDict => matchingDict =? NULL
      | IOServiceGetMatchingServices _ => fun '(kr, _) =>
          negb (kr =? KERN_SUCCESS)
      | IOIteratorNext _ => fun service => service =? NULL
      | IOCreatePlugInInterfaceForService _ kIOUSBDeviceUserClientTypeID =>
          fun '(kr, plugInInterface) =>
          negb (kr =? KERN_SUCCESS) || (plugInInterface =? NULL)
      | IOCreatePlugInInterfaceForService _ kIOUSBInterfaceUserClientTypeID =>
          fun '(kr, _) => negb (kr =? kIOReturnSuccess)
      | QueryInterface _ _ => fun '(result, p) =>
          negb (result =? 0) || (p =? NULL)
      | USBDeviceOpenSeize _ => fun kr => negb (kr =? kIOReturnSuccess)
      | CreateInterfaceIterator _ _ => fun '(kr, _) =>
          negb (kr =? kIOReturnSuccess)
      | _ => fun _ => false
      end r
  end.

Definition prints (format : string) (e : event) : bool :=
  match ev_call e with
  | printf format' _ => String.eqb format' format
  | _ => false
  end.

(** The streaming part of the session was reached. *)
Definition streaming_started (t : trace) : bool :=
  existsb (prints "\n--- Sending 200 frames to pipe 1 (5 sec) ---\n") t.

(** *** The open step *)

Definition is_open_attempt (e : event) : bool :=
  match ev_call e with
  | USBDeviceOpen _ | USBDeviceOpenSeize _ => true
  | _ => false
  end.

(** The calls of the steps that follow the open step: configuration,
    interface lookup and binding, and every call on the interface. *)
Definition is_interface_step (e : event) : bool :=
  match ev_call e with
  | SetConfiguration _ _ | CreateInterfaceIterator _ _
  | IOCreatePlugInInterfaceForService _ kIOUSBInterfaceUserClientTypeID
  | QueryInterface _ kIOUSBInterfaceInterfaceID
  | USBInterfaceOpen _ | GetNumEndpoints _ | GetPipeProperties _ _
  | WritePipe _ _ _ | USBInterfaceClose _ | InterfaceRelease _ => true
  | _ => false
  end.

(** *** Cooperating platforms *)

(** What a platform must answer for the acquisition (steps 1 to 3, 5
    and 6) to go through and for the listing of the pipes to end: the
    handles it gives are not NULL, the calls that produce them succeed,
    a seize succeeds when it is attempted, and fewer than 255 endpoints
    are reported.  Nothing is asked of [USBDeviceOpen],
    [SetConfiguration], [USBInterfaceOpen], [GetPipeProperties] and
    [WritePipe]. *)
Definition acquisition_ok (c : call) : resp c -> Prop :=
  match c as c0 return resp c0 -> Prop with
  | IOServiceMatching _ => fun matchingDict => matchingDict <> NULL
  | IOServiceGetMatchingServices _ => fun r => fst r = KERN_SUCCESS
  | IOIteratorNext _ => fun service => service <> NULL
  | IOCreatePlugInInterfaceForService _ _ => fun r =>
      fst r = KERN_SUCCESS /\ snd r <> NULL
  | QueryInterface _ _ => fun r => fst r = 0 /\ snd r <> NULL
  | USBDeviceOpenSeize _ => fun kr => kr = kIOReturnSuccess
  | CreateInterfaceIterator _ _ => fun r => fst r = kIOReturnSuccess
  | GetNumEndpoints _ => fun r => UInt8 (snd r) < 255
  | _ => fun _ => True
  end.

Definition cooperates (o : oracle) : Prop :=
  forall t c, acquisition_ok c (o t c).

(** A platform that answers [SetConfiguration] with [kc] and
    [USBInterfaceOpen] with [ko], and every other call as [o] does. *)
Definition with_statuses (kc ko : kern_return_t) (o : oracle) : oracle :=
  fun t c =>
    match c as c0 return resp c0 -> resp c0 with
    | SetConfiguration _ _ => fun _ => kc
    | USBInterfaceOpen _ => fun _ => ko
    | _ => fun r => r
    end (o t c).

(** The last event of the trace is a print of [format]. *)
Definition just_printed (format : string) (t : trace) : bool :=
  match rev t with
  | e :: _ => prints format e
  | [] => false
  end.

(** A platform that answers the write announced for pipe 1 with [k1]
    and the write announced for pipe 2 with [k2], and every other call
    as [o] does. *)
Definition with_trial_statuses (k1 k2 : kern_return_t) (o : oracle) : oracle :=
  fun t c =>
    match c as c0 return resp c0 -> resp c0 with
    | WritePipe _ _ _ => fun r =>
        if just_printed "\n--- Writing to pipe 1 (EP 0x01) ---\n" t then k1
        else if just_printed
                  "\n--- Writing to pipe 2 (EP 0x02 - doesn't exist) ---\n" t
        then k2 else r
    | _ => fun r => r
    end (o t c).

(** The steps from configuration to the start of streaming. *)
Definition is_step (e : event) : bool :=
  match ev_call e with
  | SetConfiguration _ _ | CreateInterfaceIterator _ _
  | USBInterfaceOpen _ | GetNumEndpoints _ => true
  | printf format _ =>
      String.eqb format "\n--- Sending 200 frames to pipe 1 (5 sec) ---\n"
  | _ => false
  end.

(** The writes, the prints of the statuses of the two trial writes, and
    the start of streaming. *)
Definition is_write_or_report (e : event) : bool :=
  match ev_call e with
  | WritePipe _ _ _ => true
  | printf format _ =>
      existsb (String.eqb format)
        ["WritePipe(1): 0x%x (%s)\n"; "WritePipe(2): 0x%x (%s)\n";
         "\n--- Sending 200 frames to pipe 1 (5 sec) ---\n"]
  | _ => false
  end.

Definition is_criterion (e : event) : bool :=
  match ev_call e with CFNumberCreate _ => true | _ => false end.

(** *** The answers of the acquisition *)

(** The calls whose answers decide how far the acquisition goes. *)
Definition is_acquisition (e : event) : bool :=
  match ev_call e with
  | IOServiceMatching _ | IOServiceGetMatchingServices _ | IOIteratorNext _
  | IOCreatePlugInInterfaceForService _ _ | QueryInterface _ _
  | USBDeviceOpen _ | USBDeviceOpenSeize _ | CreateInterfaceIterator _ _ =>
      true
  | _ => false
  end.

(** The creation of the interface plug-in gave no plug-in.  With a
    status of failure line 124 catches it; with a status of success
    nothing does. *)
Definition missing_interface_plugin (e : event) : bool :=
  match e with
  | Ev c r =>
      match c as c0 return resp c0 -> bool with
      | IOCreatePlugInInterfaceForService _ kIOUSBInterfaceUserClientTypeID =>
          fun '(_, plugInInterface) => plugInInterface =? NULL
      | _ => fun _ => false
      end r
  end.

(** An answer with which a step of the acquisition fails: one that the
    program tests and gives up on, or the missing interface plug-in. *)
Definition fails (e : event) : bool := fatal e || missing_interface_plugin e.

Arguments fails e /.

(** The last of the answers is a failure, and it is the only one. *)
Fixpoint fails_at_last (answers : trace) : Prop :=
  match answers with
  | [] => False
  | e :: rest =>
      match rest with
      | [] => fails e = true
      | _ :: _ => fails e = false /\ fails_at_last rest
      end
  end.

(** The answers of an acquisition that goes through: the matching
    dictionary [matchingDict], the iterator [iterator] and its service
    [usbDevice], the plug-in [plugIn] and the device interface [d]; the
    attempts [opening] to open the device; the iterator [iterator'] and
    its service [usbInterface], the plug-in [plugIn'] and the interface
    interface [i]. *)
Definition acquisition
    (matchingDict iterator usbDevice plugIn d : handle) (opening : trace)
    (iterator' usbInterface plugIn' i : handle) : trace :=
  [Ev (IOServiceMatching kIOUSBDeviceClassName) matchingDict;
   Ev (IOServiceGetMatchingServices matchingDict) (KERN_SUCCESS, iterator);
   Ev (IOIteratorNext iterator) usbDevice;
   Ev (IOCreatePlugInInterfaceForService usbDevice
         kIOUSBDeviceUserClientTypeID) (KERN_SUCCESS, plugIn);
   Ev (QueryInterface plugIn kIOUSBDeviceInterfaceID) (0, d)] ++
  opening ++
  [Ev (CreateInterfaceIterator d request) (kIOReturnSuccess, iterator');
   Ev (IOIteratorNext iterator') usbInterface;
   Ev (IOCreatePlugInInterfaceForService usbInterface
         kIOUSBInterfaceUserClientTypeID) (kIOReturnSuccess, plugIn');
   Ev (QueryInterface plugIn' kIOUSBInterfaceInterfaceID) (0, i)].

(** The attempts of an open step that succeeds: one open, or a refused
    open and a seize. *)
Definition opening_of (d : handle) (opening : trace) : Prop :=
  opening = [Ev (USBDeviceOpen d) kIOReturnSuccess] \/
  exists kr,
    kr <> kIOReturnSuccess /\
    opening = [Ev (USBDeviceOpen d) kr;
               Ev (USBDeviceOpenSeize d) kIOReturnSuccess].

(** *** Statuses that are printed and not tested *)

(** The two calls that follow [SetConfiguration] and [USBInterfaceOpen]:
    the print of the status, then the next step on the same handle. *)
Definition goes_on (e : event) : option (list call) :=
  match e with
  | Ev c r =>
      match c as c0 return resp c0 -> option (list call) with
      | SetConfiguration d _ => fun kr =>
          Some [printf "SetConfiguration(1): 0x%x\n" [Int kr];
                CreateInterfaceIterator d request]
      | USBInterfaceOpen i => fun kr =>
          Some [printf "USBInterfaceOpen: 0x%x\n" [Int kr];
                GetNumEndpoints i]
      | _ => fun _ => None
      end r
  end.

(** The trace [t] begins with the calls [cs]. *)
Fixpoint begins_with (cs : list call) (t : trace) : Prop :=
  match cs with
  | [] => True
  | c :: cs' =>
      match t with
      | [] => False
      | e :: t' => ev_call e = c /\ begins_with cs' t'
      end
  end.

(** Every event of [t] for which [due] names calls is followed by these
    calls. *)
Fixpoint each_continued (due : event -> option (list call)) (t : trace)
  : Prop :=
  match t with
  | [] => True
  | e :: t' =>
      match due e with
      | Some cs => begins_with cs t'
      | None => True
      end /\ each_continued due t'
  end.

(** *** Bookkeeping of the proofs *)

(** A test of the program as it was decided on the path at hand, kept
    in this form for rewriting. *)
Definition decided (b v : bool) : Prop := b = v.

(** ** Vocabulary of the statements on the rest of [main] *)

(** *** Service objects and plug-ins *)

(** The discipline of objects that are released oldest first: a call
    uses an object that is held, a release releases the object held the
    longest, and nothing is held when the trace ends. *)
Fixpoint kept (obtains uses releases : event -> option handle)
    (held : list handle) (t : trace) : Prop :=
  match t with
  | [] => held = []
  | e :: t' =>
      match releases e with
      | Some x =>
          match held with
          | oldest :: rest =>
              oldest = x /\ kept obtains uses releases rest t'
          | [] => False
          end
      | None =>
          match uses e with Some x => In x held | None => True end /\
          kept obtains uses releases
            (match obtains e with Some x => held ++ [x] | None => held end) t'
      end
  end.

(** The iterators and services of the I/O registry: an iterator is
    obtained when its creation succeeds, a service when the iterator
    yields one. *)
Definition object_obtained (e : event) : option handle :=
  match e with
  | Ev c r =>
      match c as c0 return resp c0 -> option handle with
      | IOServiceGetMatchingServices _ => fun '(kr, iterator) =>
          if negb (kr =? KERN_SUCCESS) then None else Some iterator
      | CreateInterfaceIterator _ _ => fun '(kr, iterator) =>
          if negb (kr =? kIOReturnSuccess) then None else Some iterator
      | IOIteratorNext _ => fun service =>
          if service =? NULL then None else Some service
      | _ => fun _ => None
      end r
  end.

Definition object_used (e : event) : option handle :=
  match ev_call e with
  | IOIteratorNext iterator => Some iterator
  | IOCreatePlugInInterfaceForService service _ => Some service
  | _ => None
  end.

Definition object_released (e : event) : option handle :=
  match ev_call e with
  | IOObjectRelease object => Some object
  | _ => None
  end.

(** The plug-in interfaces: one is obtained when its creation succeeds
    and gives a pointer that is not NULL. *)
Definition plugin_obtained (e : event) : option handle :=
  match e with
  | Ev c r =>
      match c as c0 return resp c0 -> option handle with
      | IOCreatePlugInInterfaceForService _ kIOUSBDeviceUserClientTypeID =>
          fun '(kr, plugInInterface) =>
          if negb (kr =? KERN_SUCCESS) || (plugInInterface =? NULL)
          then None else Some plugInInterface
      | IOCreatePlugInInterfaceForService _ kIOUSBInterfaceUserClientTypeID =>
          fun '(kr, plugInInterface) =>
          if negb (kr =? kIOReturnSuccess) || (plugInInterface =? NULL)
          then None else Some plugInInterface
      | _ => fun _ => None
      end r
  end.

Definition plugin_used (e : event) : option handle :=
  match ev_call e with
  | QueryInterface plugIn _ => Some plugIn
  | _ => None
  end.

Definition plugin_released (e : event) : option handle :=
  match ev_call e with
  | PlugInRelease plugIn => Some plugIn
  | _ => None
  end.

(** *** What the next call must be *)

(** Every event that has a call due is followed by an event of that
    call. *)
Fixpoint each_followed (due : event -> option call) (t : trace) : Prop :=
  match t with
  | [] => True
  | e :: t' =>
      match due e with
      | Some c =>
          match t' with
          | e' :: _ => ev_call e' = c
          | [] => False
          end
      | None => True
      end /\
      each_followed due t'
  end.

(** The release due after the one use the program makes of an iterator,
    of a service and of a plug-in. *)
Definition release_due (e : event) : option call :=
  match ev_call e with
  | IOIteratorNext iterator => Some (IOObjectRelease iterator)
  | IOCreatePlugInInterfaceForService service _ =>
      Some (IOObjectRelease service)
  | QueryInterface plugIn _ => Some (PlugInRelease plugIn)
  | _ => None
  end.

(** The line due after a call whose status the program prints at once:
    always for the open, the seize, the configuration, the interface
    open, the endpoint count and a pipe query; on failure for the two
    calls that create an iterator. *)
Definition report_due (e : event) : option call :=
  match e with
  | Ev c r =>
      match c as c0 return resp c0 -> option call with
      | IOServiceGetMatchingServices _ => fun '(kr, _) =>
          if negb (kr =? KERN_SUCCESS)
          then Some (printf "IOServiceGetMatchingServices failed: 0x%x\n"
                       [Int kr])
          else None
      | USBDeviceOpen _ => fun kr =>
          Some (if negb (kr =? kIOReturnSuccess)
                then printf "USBDeviceOpen failed: 0x%x\n" [Int kr]
                else printf "Device opened\n" [])
      | USBDeviceOpenSeize _ => fun kr =>
          Some (if negb (kr =? kIOReturnSuccess)
                then printf "USBDeviceOpenSeize also failed: 0x%x\n" [Int kr]
                else printf "Device opened\n" [])
      | SetConfiguration _ _ => fun kr =>
          Some (printf "SetConfiguration(1): 0x%x\n" [Int kr])
      | CreateInterfaceIterator _ _ => fun '(kr, _) =>
          if negb (kr =? kIOReturnSuccess)
          then Some (printf "CreateInterfaceIterator failed: 0x%x\n" [Int kr])
          else None
      | USBInterfaceOpen _ => fun kr =>
          Some (printf "USBInterfaceOpen: 0x%x\n" [Int kr])
      | GetNumEndpoints _ => fun '(kr, n) =>
          Some (printf "NumEndpoints: %d (kr=0x%x)\n" [Int (UInt8 n); Int kr])
      | GetPipeProperties _ i => fun '(kr, p) =>
          Some (printf
            "  Pipe %d: direction=%d number=%d type=%d maxPkt=%d (kr=0x%x)\n"
            [Int i; Int (direction p); Int (number p); Int (transferType p);
             Int (maxPacketSize p); Int kr])
      | _ => fun _ => None
      end r
  end.

(** *** Matching and input/output *)

Definition is_matching (e : event) : bool :=
  match ev_call e with
  | IOServiceMatching _ | CFNumberCreate _ | CFDictionarySetValue _ _ _
  | IOServiceGetMatchingServices _ => true
  | _ => false
  end.

(** The calls that come after the device was found. *)
Definition is_beyond_matching (e : event) : bool :=
  match ev_call e with
  | printf _ _ | IOServiceMatching _ | CFNumberCreate _
  | CFDictionarySetValue _ _ _ | IOServiceGetMatchingServices _
  | IOIteratorNext _ | IOObjectRelease _ => false
  | _ => true
  end.

(** The calls on an interface that is bound, and the sleeps. *)
Definition is_interface_io (e : event) : bool :=
  match ev_call e with
  | USBInterfaceOpen _ | GetNumEndpoints _ | GetPipeProperties _ _
  | WritePipe _ _ _ | usleep _ => true
  | _ => false
  end.

(** A platform that reports the creation of the interface plug-in as a
    success and gives no plug-in, and answers every other call as [o]
    does. *)
Definition without_interface_plugin (o : oracle) : oracle :=
  fun t c =>
    match c as c0 return resp c0 -> resp c0 with
    | IOCreatePlugInInterfaceForService _ kIOUSBInterfaceUserClientTypeID =>
        fun _ => (kIOReturnSuccess, NULL)
    | _ => fun r => r
    end (o t c).

(** A platform on which the device is absent: the iterator of matching
    services is empty. *)
Definition without_device (o : oracle) : oracle :=
  fun t c =>
    match c as c0 return resp c0 -> resp c0 with
    | IOIteratorNext _ => fun _ => NULL
    | _ => fun r => r
    end (o t c).

(** The trace [t] ends with the events [suffix]. *)
Definition ends_with (suffix t : trace) : Prop :=
  exists t0, t = t0 ++ suffix.
(** * Reasoning about the program *)

(** ** Running one statement *)

Lemma bind_assoc {A B C} (m : M A) (f : A -> M B) (g : B -> M C) o t :
  bind (bind m f) g o t = bind m (fun x => bind (f x) g) o t.
Proof. unfold bind. destruct (m o t); reflexivity. Qed.

Lemma bind_ret {A B} (a : A) (k : A -> M B) o t : bind (ret a) k o t = k a o t.
Proof. reflexivity. Qed.

Lemma bind_return {A B} code (k : A -> M B) o t :
  bind (return_ code) k o t = Return code t.
Proof. reflexivity. Qed.

(** The answer of the platform is all a proof may use about a call:
    [P] is shown for every answer [r], knowing only that the oracle
    gave it. *)
Lemma call_rule {B} (P : outcome B -> Prop) c (k : resp c -> M B) o t :
  (forall r : resp c, r = o t c -> P (k r o (t ++ [Ev c r]))) ->
  P (bind (do_call c) k o t).
Proof. intros H. exact (H (o t c) eq_refl). Qed.

Lemma method_call (p : handle) c : p <> NULL -> method p c = do_call c.
Proof. intros H. unfold method. apply Z.eqb_neq in H. now rewrite H. Qed.

Lemma bind_fault {A B} (k : A -> M B) o t : bind fault k o t = Fault t.
Proof. reflexivity. Qed.

Lemma bind_out_of_fuel {A B} (k : A -> M B) o t :
  bind out_of_fuel k o t = OutOfFuel t.
Proof. reflexivity. Qed.

Lemma bind_next {A B} (m : M A) (k : A -> M B) o t a t' :
  m o t = Next a t' -> bind m k o t = k a o t'.
Proof. unfold bind. now intros ->. Qed.

Lemma bind_still_running {A B} (m : M A) (k : A -> M B) o t t' :
  m o t = OutOfFuel t' -> bind m k o t = OutOfFuel t'.
Proof. unfold bind. now intros ->. Qed.

(** Facts from the tests the program makes. *)
Ltac tests :=
  repeat match goal with
  | H : (_ || _) = false |- _ => apply orb_false_iff in H; destruct H
  | H : (_ && _) = true |- _ => apply andb_true_iff in H; destruct H
  | H : negb _ = false |- _ => apply negb_false_iff in H
  | H : negb _ = true |- _ => apply negb_true_iff in H
  | H : (_ =? _) = true |- _ => apply Z.eqb_eq in H
  | H : (_ =? _) = false |- _ => apply Z.eqb_neq in H
  | H : (_ <=? _) = true |- _ => apply Z.leb_le in H
  | H : (_ <=? _) = false |- _ => apply Z.leb_gt in H
  end.

(** One call: the answer becomes a variable [r]; [use] may record what
    is known of it from the equation [r = o t c] before the equation is
    dropped. *)
Ltac exec_call use :=
  lazymatch goal with
  | |- context [@bind ?A ?B (do_call ?c) ?k ?o ?t] =>
      pattern (@bind A B (do_call c) k o t); apply call_rule; intros ? ?;
      lazymatch goal with
      | E : ?r = o t c |- _ =>
          use E; clear E;
          try (unfold resp in r;
               lazymatch type of r with
               | prod _ _ => destruct r
               | unit => destruct r
               end)
      end;
      cbv beta iota
  end.

(** One statement of the program at the head of the goal. *)
Ltac exec_with use :=
  lazymatch goal with
  | |- context [@bind _ _ (@bind _ _ _ _) _ _ _] => rewrite bind_assoc
  | |- context [@bind _ _ (ret _) _ _ _] => rewrite bind_ret
  | |- context [@bind _ _ (return_ _) _ _ _] => rewrite bind_return
  | |- context [@bind _ _ fault _ _ _] => rewrite bind_fault
  | |- context [@bind _ _ out_of_fuel _ _ _] => rewrite bind_out_of_fuel
  | |- context [@bind _ _ (do_call _) _ _ _] => exec_call use
  | |- context [@bind _ _ (method ?p ?c) _ _ _] =>
      first [ rewrite (method_call p c) by assumption
            | unfold method at 1;
              let H := fresh "H" in destruct (p =? NULL) eqn:H; tests ]
  | |- context [@bind _ _ (if ?b then _ else _) _ _ _] =>
      let H := fresh "H" in
      let D := fresh "D" in
      destruct b eqn:H; pose proof (H : decided b _) as D; tests
  | |- context [@bind _ _ (match ?r with pair _ _ => _ end) _ _ _] =>
      destruct r
  end.

Ltac keep_nothing E := idtac.
Ltac exec := exec_with keep_nothing.

(** ** The two loops *)

Lemma indices_S i len : indices i (S len) = i :: indices (i + 1) len.
Proof.
  unfold indices. simpl. rewrite Z.add_0_r. f_equal.
  rewrite <- seq_shift, map_map. apply map_ext. intros k. lia.
Qed.

(** The events of a loop iteration, in front of the events of the
    iterations that follow, are calls of the kind [is_io]. *)
Ltac io_done Hio :=
  rewrite ?forallb_app, Hio; cbn; rewrite ?Z.eqb_refl; reflexivity.

Lemma listing_io h e : is_listing h e = true -> is_io h e = true.
Proof. unfold is_io. now intros ->. Qed.

Lemma forallb_listing_io h evs :
  forallb (is_listing h) evs = true -> forallb (is_io h) evs = true.
Proof.
  rewrite !forallb_forall. intros H e He. apply listing_io. auto.
Qed.

Lemma forallb_streaming_io h evs :
  forallb (is_streaming h) evs = true -> forallb (is_io h) evs = true.
Proof.
  rewrite !forallb_forall. intros H e He. unfold is_io.
  rewrite (H e He). apply orb_true_r.
Qed.

Section Loops.

Variable o : oracle.
Variable h : handle.
Hypothesis h_not_null : h <> NULL.

(** [numEndpoints] below 255: the counter reaches [numEndpoints + 1]
    and the loop ends, having queried every index once, whatever the
    queries returned. *)
Lemma pipe_loop_ends numEndpoints :
  numEndpoints < 255 ->
  forall fuel i,
    0 <= i <= numEndpoints + 1 ->
    (Z.to_nat (numEndpoints + 1 - i) < fuel)%nat ->
    forall t, exists evs,
      pipe_loop fuel h i numEndpoints o t = Next tt (t ++ evs) /\
      map ev_call (filter is_query evs) =
        map (GetPipeProperties h) (indices i (Z.to_nat (numEndpoints + 1 - i))) /\
      forallb (is_listing h) evs = true.
Proof.
  intros Hn. induction fuel as [|fuel IH]; intros i Hi Hfuel t; [lia|].
  cbn [pipe_loop]. destruct (i <=? numEndpoints) eqn:Hle; tests.
  - do 3 exec.
    assert (Hw : UInt8 (i + 1) = i + 1) by (unfold UInt8; apply Z.mod_small; lia).
    rewrite Hw.
    edestruct (IH (i + 1)) as (evs & Hrun & Hq & Hio); [lia | lia |].
    rewrite Hrun. eexists. split; [|split].
    + rewrite <- !app_assoc. reflexivity.
    + cbn [app filter is_query ev_call map]. rewrite Hq.
      replace (Z.to_nat (numEndpoints + 1 - i))
        with (S (Z.to_nat (numEndpoints + 1 - (i + 1)))) by lia.
      rewrite indices_S. reflexivity.
    + io_done Hio.
  - exists []. rewrite app_nil_r.
    replace (Z.to_nat (numEndpoints + 1 - i)) with O by lia.
    repeat split.
Qed.

(** [numEndpoints = 255]: every [UInt8] counter satisfies
    [i <= numEndpoints], so the loop body runs as long as there is
    fuel. *)
Lemma pipe_loop_255 :
  forall fuel i,
    0 <= i <= 255 ->
    forall t, exists evs,
      pipe_loop fuel h i 255 o t = OutOfFuel (t ++ evs) /\
      length (filter is_query evs) = fuel.
Proof.
  induction fuel as [|fuel IH]; intros i Hi t.
  - exists []. now rewrite app_nil_r.
  - cbn [pipe_loop].
    replace (i <=? 255) with true by (symmetry; apply Z.leb_le; lia).
    do 3 exec.
    assert (Hw : 0 <= UInt8 (i + 1) <= 255)
      by (unfold UInt8; pose proof (Z.mod_pos_bound (i + 1) 256); lia).
    edestruct (IH (UInt8 (i + 1)) Hw) as (evs & Hrun & Hq).
    rewrite Hrun. eexists. split.
    + rewrite <- !app_assoc. reflexivity.
    + cbn [app filter is_query ev_call length]. now rewrite Hq.
Qed.

(** Whatever the endpoint count, the loop makes calls of the kind
    [is_listing] only, and either ends or is still running. *)
Lemma pipe_loop_shape numEndpoints :
  forall fuel i t, exists evs,
    forallb (is_listing h) evs = true /\
    (pipe_loop fuel h i numEndpoints o t = Next tt (t ++ evs) \/
     pipe_loop fuel h i numEndpoints o t = OutOfFuel (t ++ evs)).
Proof.
  induction fuel as [|fuel IH]; intros i t.
  - exists []. rewrite app_nil_r. split; [reflexivity | now right].
  - cbn [pipe_loop]. destruct (i <=? numEndpoints) eqn:Hle.
    + do 3 exec.
      edestruct (IH (UInt8 (i + 1))) as (evs & Hio & [Hrun|Hrun]);
        rewrite Hrun; eexists;
        (split; [| first [left; rewrite <- !app_assoc; reflexivity
                         | right; rewrite <- !app_assoc; reflexivity]]);
        io_done Hio.
    + exists []. rewrite app_nil_r. split; [reflexivity | now left].
Qed.

(** X11.  Lines 147-159, for an endpoint count below 255: the endpoint
    listing ends, having asked for the properties of the pipes 1 to
    [numEndpoints], each once and in this order, whatever the queries
    returned. *)
Lemma get_endpoint_info_ends fuel t :
  let numEndpoints := UInt8 (snd (o t (GetNumEndpoints h))) in
  numEndpoints < 255 ->
  (Z.to_nat numEndpoints < fuel)%nat ->
  exists evs,
    get_endpoint_info fuel h o t = Next tt (t ++ evs) /\
    map ev_call (filter is_query evs) =
      map (GetPipeProperties h) (indices 1 (Z.to_nat numEndpoints)).
Proof.
  intros numEndpoints Hn Hfuel. unfold get_endpoint_info.
  rewrite method_call by assumption.
  exec_call ltac:(fun E => pose proof (f_equal (fun x => UInt8 (snd x)) E) as Hr;
                          cbn beta in Hr; fold numEndpoints in Hr).
  cbn [snd] in Hr. rewrite Hr. exec.
  assert (0 <= numEndpoints)
    by (unfold numEndpoints, UInt8; apply Z.mod_pos_bound; lia).
  edestruct (pipe_loop_ends numEndpoints Hn fuel 1) as (evs & Hrun & Hq & Hio);
    [lia | lia |].
  rewrite Hrun. eexists. split.
  - rewrite <- !app_assoc. reflexivity.
  - cbn [app filter is_query ev_call]. rewrite Hq.
    replace (numEndpoints + 1 - 1) with numEndpoints by lia. reflexivity.
Qed.

End Loops.

Lemma frame_calls_writes h pipeRef frame n evs :
  map ev_call evs = frame_calls h pipeRef frame n ->
  map ev_call (filter is_write evs) = repeat (WritePipe h pipeRef frame) n /\
  length (filter is_sleep evs) = n.
Proof.
  revert evs. induction n as [|n IH]; intros evs Hevs.
  - destruct evs; [now split | discriminate].
  - destruct evs as [|[c1 r1] [|[c2 r2] evs]]; try discriminate.
    cbn in Hevs. injection Hevs as -> -> Hevs.
    destruct (IH _ Hevs) as [Hw Hs].
    cbn. rewrite Hw, Hs. now split.
Qed.

Section Streaming.

Variable o : oracle.
Variables (h : handle) (pipeRef : Z) (frame : list Z).
Hypothesis h_not_null : h <> NULL.

(** Past frame 0 the status of a write is not looked at. *)
Lemma frame_loop_continues :
  forall n i,
    0 < i ->
    forall t, exists evs,
      frame_loop n h pipeRef frame i o t = Next tt (t ++ evs) /\
      map ev_call evs = frame_calls h pipeRef frame n /\
      forallb (is_streaming h) evs = true.
Proof.
  induction n as [|n IH]; intros i Hi t.
  - exists []. now rewrite app_nil_r.
  - cbn [frame_loop]. do 2 exec.
    replace (i =? 0) with false by (symmetry; apply Z.eqb_neq; lia).
    rewrite andb_false_r. exec.
    edestruct (IH (i + 1)) as (evs & Hrun & Hcalls & Hio); [lia|].
    rewrite Hrun. eexists. split; [|split].
    + rewrite <- !app_assoc. reflexivity.
    + cbn. now rewrite Hcalls.
    + io_done Hio.
Qed.

Lemma frame_loop_first_ok n t :
  o t (WritePipe h pipeRef frame) = kIOReturnSuccess ->
  exists evs,
    frame_loop n h pipeRef frame 0 o t = Next tt (t ++ evs) /\
    map ev_call evs = frame_calls h pipeRef frame n /\
    forallb (is_streaming h) evs = true.
Proof.
  intros Hok. destruct n as [|n].
  - exists []. now rewrite app_nil_r.
  - cbn [frame_loop]. rewrite method_call by assumption.
    exec_call ltac:(fun E => pose proof E as Hr; rewrite Hok in Hr).
    subst. cbn [negb andb Z.eqb kIOReturnSuccess]. exec.
    edestruct (frame_loop_continues n (0 + 1)) as (evs & Hrun & Hcalls & Hio); [lia|].
    rewrite Hrun. eexists. split; [|split].
    + rewrite <- !app_assoc. reflexivity.
    + cbn. now rewrite Hcalls.
    + io_done Hio.
Qed.

Lemma frame_loop_first_fails n t :
  o t (WritePipe h pipeRef frame) <> kIOReturnSuccess ->
  frame_loop (S n) h pipeRef frame 0 o t =
    Next tt (t ++ [Ev (WritePipe h pipeRef frame) (o t (WritePipe h pipeRef frame));
                   Ev (printf "  WritePipe failed: 0x%x\n"
                         [Int (o t (WritePipe h pipeRef frame))]) tt]).
Proof.
  intros Hko. cbn [frame_loop]. rewrite method_call by assumption.
  unfold bind at 1. unfold do_call at 1. cbv beta zeta.
  apply Z.eqb_neq in Hko. rewrite Hko. cbn [negb andb Z.eqb].
  unfold bind, do_call, ret. destruct (o _ (printf _ _)).
  rewrite <- app_assoc. reflexivity.
Qed.

(** Whatever the platform answers, the frame loop ends, either broken
    at frame 0 or after all its iterations. *)
Lemma frame_loop_shape n t :
  exists evs,
    frame_loop n h pipeRef frame 0 o t = Next tt (t ++ evs) /\
    forallb (is_streaming h) evs = true /\
    (map ev_call evs = frame_calls h pipeRef frame n \/
     exists kr, kr <> kIOReturnSuccess /\
       evs = [Ev (WritePipe h pipeRef frame) kr;
              Ev (printf "  WritePipe failed: 0x%x\n" [Int kr]) tt]).
Proof.
  destruct (Z.eq_dec (o t (WritePipe h pipeRef frame)) kIOReturnSuccess) as [Hok|Hko].
  - destruct (frame_loop_first_ok n t Hok) as (evs & Hrun & Hcalls & Hio).
    exists evs. auto.
  - destruct n as [|n].
    + exists []. rewrite app_nil_r. repeat split. now left.
    + rewrite (frame_loop_first_fails n t Hko). eexists. split; [reflexivity|].
      split; [cbn; now rewrite Z.eqb_refl|]. right. eexists. split; [exact Hko|reflexivity].
Qed.

End Streaming.

(** ** Events that a statement ignores *)

Lemma filter_neutral (p q : event -> bool) evs rest :
  (forall e, q e = true -> p e = false) ->
  forallb q evs = true ->
  filter p (evs ++ rest) = filter p rest.
Proof.
  intros Hp. induction evs as [|e evs IH]; cbn; [reflexivity|].
  intros H. apply andb_true_iff in H as [He Hevs].
  rewrite (Hp e He). auto.
Qed.

Lemma existsb_neutral (p q : event -> bool) evs rest :
  (forall e, q e = true -> p e = false) ->
  forallb q evs = true ->
  existsb p (evs ++ rest) = existsb p rest.
Proof.
  intros Hp. induction evs as [|e evs IH]; cbn; [reflexivity|].
  intros H. apply andb_true_iff in H as [He Hevs].
  rewrite (Hp e He). auto.
Qed.

Lemma acquisitions_neutral (q : event -> bool) evs rest :
  (forall e, q e = true -> acquired e = None) ->
  forallb q evs = true ->
  acquisitions (evs ++ rest) = acquisitions rest.
Proof.
  intros Hp. induction evs as [|e evs IH]; cbn; [reflexivity|].
  intros H. apply andb_true_iff in H as [He Hevs].
  rewrite (Hp e He). cbn. auto.
Qed.

Lemma filter_neutral_end (p q : event -> bool) evs :
  (forall e, q e = true -> p e = false) ->
  forallb q evs = true ->
  filter p evs = [].
Proof.
  intros Hp Hq. rewrite <- (app_nil_r evs).
  now rewrite (filter_neutral p q evs [] Hp Hq).
Qed.

Lemma existsb_neutral_end (p q : event -> bool) evs :
  (forall e, q e = true -> p e = false) ->
  forallb q evs = true ->
  existsb p evs = false.
Proof.
  intros Hp Hq. rewrite <- (app_nil_r evs).
  now rewrite (existsb_neutral p q evs [] Hp Hq).
Qed.

(** A predicate on events is decided on the calls of a kind by looking
    at the call and, for a print, at its format. *)
Ltac by_call :=
  let c := fresh "c" in
  let r := fresh "r" in
  intros ? [c r]; unfold is_io, is_listing, is_streaming;
  destruct c; cbn in *; intros;
  try reflexivity; try discriminate;
  repeat match goal with
  | H : (_ || _) = true |- _ => apply orb_true_iff in H; destruct H
  | H : String.eqb _ _ = true |- _ => apply String.eqb_eq in H; subst
  end;
  try discriminate; try reflexivity;
  repeat match goal with
  | r : prod _ _ |- _ => destruct r
  end;
  try reflexivity.

Create HintDb neutral.

Lemma fatal_io : forall h e, is_io h e = true -> fatal e = false.
Proof. by_call. Qed.

Lemma teardown_io : forall h e, is_io h e = true -> is_teardown e = false.
Proof. by_call. Qed.

Lemma opens_io : forall h e, is_io h e = true -> opens e = false.
Proof. by_call. Qed.

Lemma acquired_io : forall h e, is_io h e = true -> acquired e = None.
Proof. by_call. Qed.

Lemma write_listing : forall h e, is_listing h e = true -> is_write e = false.
Proof. by_call. Qed.

Lemma sleep_listing : forall h e, is_listing h e = true -> is_sleep e = false.
Proof. by_call. Qed.

Lemma prints_io format :
  String.eqb format
    "  Pipe %d: direction=%d number=%d type=%d maxPkt=%d (kr=0x%x)\n" = false ->
  String.eqb format "  WritePipe failed: 0x%x\n" = false ->
  forall h e, is_io h e = true -> prints format e = false.
Proof.
  intros Hf Hg h [c r]. unfold is_io. destruct c; cbn; try reflexivity. intros H.
  destruct (String.eqb format0 format) eqn:E; [|reflexivity].
  apply String.eqb_eq in E. subst. rewrite Hf, Hg in H. discriminate.
Qed.

Lemma open_attempt_io :
  forall h e, is_io h e = true -> is_open_attempt e = false.
Proof. by_call. Qed.

#[local] Hint Resolve open_attempt_io : neutral.

#[local] Hint Resolve fatal_io teardown_io opens_io acquired_io
  write_listing sleep_listing prints_io : neutral.

(** ** Running [main] *)

Ltac enter_main :=
  unfold run, main, find_device, get_device_interface, open_device,
    set_configuration, find_interface, get_interface_interface,
    open_interface, get_endpoint_info, try_pipes, send_frames, cleanup,
    close_device.

(** The tests decided on the way, used to evaluate a statement about the
    trace. *)
Ltac replay_tests :=
  repeat match goal with
  | H : ?b = true |- context [?b] => rewrite H
  | H : ?b = false |- context [?b] => rewrite H
  | H : ?x <> ?y |- context [?x =? ?y] => rewrite (proj2 (Z.eqb_neq x y) H)
  | H : ?x = ?y |- context [?x =? ?y] => rewrite (proj2 (Z.eqb_eq x y) H)
  end.

(** The two loops of [main], by their shape lemmas. *)
Ltac exec_loop :=
  lazymatch goal with
  | |- context [@bind _ _ (pipe_loop ?fuel ?h ?i ?n) ?k ?o ?t] =>
      let evs := fresh "evs" in
      let Hio := fresh "Hio" in
      let Hrun := fresh "Hrun" in
      let Hlist := fresh "Hlist" in
      destruct (pipe_loop_shape o h ltac:(assumption) n fuel i t)
        as (evs & Hlist & [Hrun|Hrun]);
      pose proof (forallb_listing_io h evs Hlist) as Hio;
      [ rewrite (bind_next _ _ _ _ _ _ Hrun)
      | rewrite (bind_still_running _ _ _ _ _ Hrun) ];
      clear Hrun
  | |- context [@bind _ _ (frame_loop ?n ?h ?p ?f 0) ?k ?o ?t] =>
      let evs := fresh "evs" in
      let Hio := fresh "Hio" in
      let Hrun := fresh "Hrun" in
      let Hshape := fresh "Hshape" in
      let Hstream := fresh "Hstream" in
      destruct (frame_loop_shape o h p f ltac:(assumption) n t)
        as (evs & Hrun & Hstream & Hshape);
      pose proof (forallb_streaming_io h evs Hstream) as Hio;
      rewrite (bind_next _ _ _ _ _ _ Hrun); clear Hrun
  end.

Ltac exec_main := enter_main; repeat first [exec | exec_loop].

(** Events in front of a trace that the statement ignores. *)
Ltac skip_neutral :=
  match goal with
  | H : forallb ?q ?evs = true |- context [filter ?p (?evs ++ ?rest)] =>
      rewrite (filter_neutral p q evs rest ltac:(eauto 3 with neutral) H)
  | H : forallb ?q ?evs = true |- context [existsb ?p (?evs ++ ?rest)] =>
      rewrite (existsb_neutral p q evs rest ltac:(eauto 3 with neutral) H)
  | H : forallb ?q ?evs = true |- context [acquisitions (?evs ++ ?rest)] =>
      rewrite (acquisitions_neutral q evs rest ltac:(eauto 3 with neutral) H)
  | H : forallb ?q ?evs = true |- context [filter ?p ?evs] =>
      rewrite (filter_neutral_end p q evs ltac:(eauto 3 with neutral) H)
  | H : forallb ?q ?evs = true |- context [existsb ?p ?evs] =>
      rewrite (existsb_neutral_end p q evs ltac:(eauto 3 with neutral) H)
  end.

Lemma acquisitions_skip e t :
  acquired e = None -> acquisitions (e :: t) = acquisitions t.
Proof. unfold acquisitions. cbn. now intros ->. Qed.

Lemma acquisitions_keep e t x :
  acquired e = Some x -> acquisitions (e :: t) = x :: acquisitions t.
Proof. unfold acquisitions. cbn. now intros ->. Qed.

Lemma filter_skip (p : event -> bool) e l :
  p e = false -> filter p (e :: l) = filter p l.
Proof. cbn. now intros ->. Qed.

Lemma filter_keep (p : event -> bool) e l :
  p e = true -> filter p (e :: l) = e :: filter p l.
Proof. cbn. now intros ->. Qed.

Lemma existsb_skip (p : event -> bool) e l :
  p e = false -> existsb p (e :: l) = existsb p l.
Proof. cbn. now intros ->. Qed.

Lemma existsb_hit (p : event -> bool) e l :
  p e = true -> existsb p (e :: l) = true.
Proof. cbn. now intros ->. Qed.

(** A boolean statement about one event. *)
Ltac decide_event := cbn; replay_tests; reflexivity.

(** A filter or a search over a trace, one event at a time. *)
Ltac evaluate :=
  rewrite <- ?app_assoc; cbn [app]; unfold decided in *;
  unfold streaming_started;
  repeat first
    [ rewrite filter_skip by decide_event
    | rewrite filter_keep by decide_event
    | rewrite existsb_skip by decide_event
    | rewrite existsb_hit by decide_event
    | rewrite acquisitions_skip by decide_event
    | erewrite acquisitions_keep by decide_event
    | skip_neutral ];
  change (acquisitions []) with (@nil (interface_id * handle));
  cbn [filter existsb length map ev_call flat_map rev app].

(** ** Running [main] on a platform that cooperates *)

(** A branch that the platform's cooperation excludes. *)
Ltac absurd_branch :=
  exfalso;
  repeat match goal with
  | H : (_ || _) = true |- _ => apply orb_true_iff in H; destruct H
  end;
  tests; unfold KERN_SUCCESS, kIOReturnSuccess, NULL in *; congruence.

Ltac tidy :=
  cbn [fst snd] in *;
  repeat match goal with
  | H : _ /\ _ |- _ => destruct H
  | H : True |- _ => clear H
  end.

(** What cooperation says of the answer [r = o t c]. *)
Ltac cooperation Hco E :=
  lazymatch type of E with
  | _ = ?o ?t ?c =>
      let Hr := fresh "Hr" in
      pose proof (Hco t c) as Hr; rewrite <- E in Hr;
      cbn [acquisition_ok] in Hr
  end.

(** The pipe loop when fewer than 255 endpoints are reported. *)
Ltac exec_pipe_loop Hfuel :=
  lazymatch goal with
  | |- context [@bind _ _ (pipe_loop ?fuel ?h 1 (UInt8 ?z)) ?k ?o ?t] =>
      let evs := fresh "evs" in
      let Hio := fresh "Hio" in
      let Hrun := fresh "Hrun" in
      let Hlist := fresh "Hlist" in
      let Hq := fresh "Hq" in
      let Hz := fresh "Hz" in
      assert (Hz : 0 <= UInt8 z)
        by (unfold UInt8; apply Z.mod_pos_bound; lia);
      destruct (pipe_loop_ends o h ltac:(assumption) (UInt8 z)
                  ltac:(assumption) fuel 1 ltac:(lia) ltac:(lia) t)
        as (evs & Hrun & Hq & Hlist);
      pose proof (forallb_listing_io h evs Hlist) as Hio;
      rewrite (bind_next _ _ _ _ _ _ Hrun); clear Hrun
  end.

(** ** The handle discipline, one event at a time *)

Lemma disciplined_plain held e t :
  releases e = None -> acquired e = None ->
  match uses e with Some x => In x held | None => True end ->
  disciplined held t -> disciplined held (e :: t).
Proof. cbn. intros -> ->. auto. Qed.

Lemma disciplined_acquire held e t x :
  releases e = None -> acquired e = Some x ->
  match uses e with Some y => In y held | None => True end ->
  disciplined (x :: held) t -> disciplined held (e :: t).
Proof. cbn. intros -> ->. auto. Qed.

Lemma disciplined_release held e t x :
  releases e = Some x -> disciplined held t -> disciplined (x :: held) (e :: t).
Proof. cbn. intros ->. auto. Qed.

Lemma io_uses h e :
  is_io h e = true ->
  releases e = None /\ acquired e = None /\
  (uses e = None \/ uses e = Some (kIOUSBInterfaceInterfaceID, h)).
Proof.
  destruct e as [c r]. unfold is_io, is_listing, is_streaming.
  destruct c; cbn; try discriminate; intros H;
    rewrite ?orb_false_r in H; tests; subst; auto 6.
Qed.

Lemma disciplined_io h held evs rest :
  forallb (is_io h) evs = true ->
  In (kIOUSBInterfaceInterfaceID, h) held ->
  disciplined held rest -> disciplined held (evs ++ rest).
Proof.
  intros Hio Hheld Hrest. induction evs as [|e evs IH]; [exact Hrest|].
  cbn in Hio. apply andb_true_iff in Hio as [He Hevs].
  destruct (io_uses h e He) as (Hr & Ha & Hu).
  cbn [app]. apply disciplined_plain; auto.
  destruct Hu as [-> | ->]; auto.
Qed.

Ltac discipline :=
  rewrite <- ?app_assoc; cbn [app]; unfold decided in *;
  repeat first
    [ apply disciplined_release; [reflexivity|]
    | apply disciplined_plain; [reflexivity | decide_event | cbn; auto |]
    | eapply disciplined_acquire; [reflexivity | decide_event | cbn; auto |]
    | eapply disciplined_io; [eassumption | cbn; auto |] ];
  try reflexivity.

(** * The frame streamer *)

(** C2.  When the first send of the frame loop (frame index 0) returns a
    status other than success, the loop makes that one write, prints the
    failure and ends: there is no second write and no sleep. *)
Theorem first_send_failure_aborts (o : oracle) h pipeRef frame frameCount t :
  h <> NULL ->
  (0 < frameCount)%nat ->
  o t (WritePipe h pipeRef frame) <> kIOReturnSuccess ->
  exists kr evs,
    kr <> kIOReturnSuccess /\
    frame_loop frameCount h pipeRef frame 0 o t = Next tt (t ++ evs) /\
    evs = [Ev (WritePipe h pipeRef frame) kr;
           Ev (printf "  WritePipe failed: 0x%x\n" [Int kr]) tt] /\
    length (filter is_write evs) = 1%nat /\
    length (filter is_sleep evs) = 0%nat.
Proof.
  intros Hh Hn Hko. destruct frameCount as [|n]; [lia|].
  exists (o t (WritePipe h pipeRef frame)). eexists.
  split; [exact Hko|]. split; [apply frame_loop_first_fails; assumption|].
  repeat split.
Qed.

Lemma first_send_failure_aborts_witness :
  exists kr evs,
    kr <> kIOReturnSuccess /\
    frame_loop 200 0x2500 1 dmx 0 (platform no_pipe) [] = Next tt ([] ++ evs) /\
    evs = [Ev (WritePipe 0x2500 1 dmx) kr;
           Ev (printf "  WritePipe failed: 0x%x\n" [Int kr]) tt] /\
    length (filter is_write evs) = 1%nat /\
    length (filter is_sleep evs) = 0%nat.
Proof.
  apply (first_send_failure_aborts (platform no_pipe) 0x2500 1 dmx 200 []).
  - discriminate.
  - lia.
  - discriminate.
Defined.

(** C8.  When the first send succeeds, the frame loop writes the same
    frame to the same pipe exactly [frameCount] times; the statuses of
    the later writes are whatever the platform answers and change
    nothing. *)
Theorem frames_sent_unmodified (o : oracle) h pipeRef frame frameCount t :
  h <> NULL ->
  o t (WritePipe h pipeRef frame) = kIOReturnSuccess ->
  exists evs,
    frame_loop frameCount h pipeRef frame 0 o t = Next tt (t ++ evs) /\
    map ev_call (filter is_write evs) =
      repeat (WritePipe h pipeRef frame) frameCount.
Proof.
  intros Hh Hok.
  destruct (frame_loop_first_ok o h pipeRef frame Hh frameCount t Hok)
    as (evs & Hrun & Hcalls & _).
  exists evs. split; [exact Hrun|].
  now apply frame_calls_writes in Hcalls.
Qed.

(** C10.  When the first send succeeds, the calls of the frame loop are
    [frameCount] times a write followed by a sleep: the sleep also
    follows the last write, and there are [frameCount] sleeps. *)
Theorem sleep_after_every_send (o : oracle) h pipeRef frame frameCount t :
  h <> NULL ->
  o t (WritePipe h pipeRef frame) = kIOReturnSuccess ->
  exists evs,
    frame_loop frameCount h pipeRef frame 0 o t = Next tt (t ++ evs) /\
    map ev_call evs =
      concat (repeat [WritePipe h pipeRef frame; usleep 25000] frameCount) /\
    length (filter is_sleep evs) = frameCount.
Proof.
  intros Hh Hok.
  destruct (frame_loop_first_ok o h pipeRef frame Hh frameCount t Hok)
    as (evs & Hrun & Hcalls & _).
  exists evs. split; [exact Hrun|]. split; [exact Hcalls|].
  now apply frame_calls_writes in Hcalls.
Qed.

Lemma frames_sent_unmodified_witness :
  exists evs,
    frame_loop 200 0x2500 1 dmx 0 (platform stalls_after_first_frame) [] =
      Next tt ([] ++ evs) /\
    map ev_call (filter is_write evs) = repeat (WritePipe 0x2500 1 dmx) 200.
Proof.
  apply (frames_sent_unmodified (platform stalls_after_first_frame)
           0x2500 1 dmx 200 []).
  - discriminate.
  - reflexivity.
Defined.

Lemma sleep_after_every_send_witness :
  exists evs,
    frame_loop 3 0x2500 1 dmx 0 (platform stalls_after_first_frame) [] =
      Next tt ([] ++ evs) /\
    map ev_call evs =
      concat (repeat [WritePipe 0x2500 1 dmx; usleep 25000] 3) /\
    length (filter is_sleep evs) = 3%nat.
Proof.
  apply (sleep_after_every_send (platform stalls_after_first_frame)
           0x2500 1 dmx 3 []).
  - discriminate.
  - reflexivity.
Defined.

(** * The pipe descriptor resolver *)

(** C6, at the endpoint count 255.  The claim asks for exactly 255
    queries, at the indices 1 to 255.  The loop counter is a [UInt8]:
    after the query at index 255 it wraps to 0 and [i <= numEndpoints]
    still holds, so the loop makes as many queries as it is given fuel
    and has not ended then. *)
Theorem pipe_enumeration_255_never_ends (o : oracle) h fuel t :
  h <> NULL ->
  UInt8 (snd (o t (GetNumEndpoints h))) = 255 ->
  exists evs,
    get_endpoint_info fuel h o t = OutOfFuel (t ++ evs) /\
    length (filter is_query evs) = fuel.
Proof.
  intros Hh Hn. unfold get_endpoint_info.
  rewrite method_call by assumption.
  exec_call ltac:(fun E => pose proof (f_equal (fun x => UInt8 (snd x)) E) as Hr;
                          cbn beta in Hr; rewrite Hn in Hr).
  cbn [snd] in Hr. rewrite Hr. exec.
  edestruct (pipe_loop_255 o h Hh fuel 1) as (evs & Hrun & Hq); [lia|].
  rewrite Hrun. eexists. split.
  - rewrite <- !app_assoc. reflexivity.
  - exact Hq.
Qed.

Lemma pipe_enumeration_255_never_ends_witness :
  exists evs,
    get_endpoint_info 1000 0x2500 (platform many_pipes) [] =
      OutOfFuel ([] ++ evs) /\
    length (filter is_query evs) = 1000%nat.
Proof.
  apply (pipe_enumeration_255_never_ends (platform many_pipes) 0x2500 1000 []).
  - discriminate.
  - reflexivity.
Defined.

(** With 255 endpoints reported, the query after the one at index 255
    is at index 0. *)
Example query_after_255_is_at_0 :
  exists t,
    get_endpoint_info 300 0x2500 (platform many_pipes) [] = OutOfFuel t /\
    nth_error (map ev_call (filter is_query t)) 254 =
      Some (GetPipeProperties 0x2500 255) /\
    nth_error (map ev_call (filter is_query t)) 255 =
      Some (GetPipeProperties 0x2500 0).
Proof. eexists. split; [vm_compute; reflexivity|]. split; vm_compute; reflexivity. Qed.

(** X10.  With fuel for 256 iterations of the pipe loop, [main] returns,
    unless the interface plug-in it was given is NULL or the interface
    reports 255 endpoints. *)
Lemma main_ends (o : oracle) fuel r :
  (256 <= fuel)%nat ->
  run fuel o = r ->
  (exists code t, r = Return code t) \/
  (exists t, r = Fault t) \/
  (exists t i kr n,
     r = OutOfFuel t /\
     In (Ev (GetNumEndpoints i) (kr, n)) t /\ UInt8 n = 255).
Proof.
  intros Hfuel. revert r. enter_main. repeat exec.
  all: lazymatch goal with
       | |- context [pipe_loop] => idtac
       | _ => intros ? <-;
              first [ left; do 2 eexists; reflexivity
                    | right; left; eexists; reflexivity ]
       end.
  all: match goal with
       | |- context [pipe_loop _ _ _ (UInt8 ?z)] =>
           assert (Hz : 0 <= UInt8 z < 256)
             by (unfold UInt8; apply Z.mod_pos_bound; lia);
           destruct (Z.eq_dec (UInt8 z) 255) as [E255 | E255]
       end.
  all: try (rewrite E255;
            match goal with
            | |- context [@bind _ _ (pipe_loop ?f ?h 1 255) ?k ?o ?t] =>
                destruct (pipe_loop_255 o h ltac:(assumption) f 1 ltac:(lia) t)
                  as (evs & Hrun & _);
                rewrite (bind_still_running _ _ _ _ _ Hrun)
            end;
            intros ? <-;
            right; right; do 4 eexists; split; [reflexivity|];
            split; [|exact E255];
            apply in_or_app; left; apply in_or_app; left;
            apply in_or_app; right; left; reflexivity).
  all: match goal with H : UInt8 ?z <> 255 |- _ =>
         assert (Hlt : UInt8 z < 255) by lia end.
  all: exec_pipe_loop Hfuel.
  all: repeat first [exec | exec_loop].
  all: intros ? <-; left; do 2 eexists; reflexivity.
Qed.

(** * Sessions on a cooperating platform *)

Lemma frame_calls_sleeps h pipeRef frame n evs :
  map ev_call evs = frame_calls h pipeRef frame n ->
  map ev_call (filter is_sleep evs) = repeat (usleep 25000) n.
Proof.
  revert evs. induction n as [|n IH]; intros evs Hevs.
  - destruct evs; [reflexivity | discriminate].
  - destruct evs as [|[c1 r1] [|[c2 r2] evs]]; try discriminate.
    cbn in Hevs. injection Hevs as -> -> Hevs.
    cbn. now rewrite (IH _ Hevs).
Qed.

Lemma criterion_io : forall h e, is_io h e = true -> is_criterion e = false.
Proof. by_call. Qed.

Lemma step_io : forall h e, is_io h e = true -> is_step e = false.
Proof. by_call. Qed.

Lemma query_streaming_event :
  forall h e, is_streaming h e = true -> is_query e = false.
Proof. by_call. Qed.

Lemma report_listing :
  forall h e, is_listing h e = true -> is_write_or_report e = false.
Proof. by_call. Qed.

#[local] Hint Resolve criterion_io step_io query_streaming_event
  report_listing : neutral.

Lemma platform_cooperates s :
  seize_status s = kIOReturnSuccess ->
  UInt8 (endpoints s) < 255 ->
  cooperates (platform s).
Proof.
  intros Hs He t c. destruct c; cbn; auto; try discriminate.
  - destruct (iterator =? 512); discriminate.
  - destruct type; cbn; split; (reflexivity || discriminate).
  - destruct iid; cbn; split; (reflexivity || discriminate).
Qed.

Lemma cooperates_with_statuses kc ko o :
  cooperates o -> cooperates (with_statuses kc ko o).
Proof.
  intros H t c. specialize (H t c). destruct c; cbn in *; auto.
Qed.

Lemma cooperates_with_trial_statuses k1 k2 o :
  cooperates o -> cooperates (with_trial_statuses k1 k2 o).
Proof.
  intros H t c. specialize (H t c). destruct c; cbn in *; auto.
Qed.

Lemma trial_status_1 k1 k2 o t h p f :
  with_trial_statuses k1 k2 o
    (t ++ [Ev (printf "\n--- Writing to pipe 1 (EP 0x01) ---\n" []) tt])
    (WritePipe h p f) = k1.
Proof.
  unfold with_trial_statuses, just_printed. rewrite rev_unit. reflexivity.
Qed.

Lemma trial_status_2 k1 k2 o t h p f :
  with_trial_statuses k1 k2 o
    (t ++ [Ev (printf "\n--- Writing to pipe 2 (EP 0x02 - doesn't exist) ---\n"
                 []) tt])
    (WritePipe h p f) = k2.
Proof.
  unfold with_trial_statuses, just_printed. rewrite rev_unit. reflexivity.
Qed.

Lemma frame_calls_reports h pipeRef frame n evs :
  map ev_call evs = frame_calls h pipeRef frame n ->
  map ev_call (filter is_write_or_report evs) =
    repeat (WritePipe h pipeRef frame) n.
Proof.
  revert evs. induction n as [|n IH]; intros evs Hevs.
  - destruct evs; [reflexivity | discriminate].
  - destruct evs as [|[c1 r1] [|[c2 r2] evs]]; try discriminate.
    cbn in Hevs. injection Hevs as -> -> Hevs.
    cbn. now rewrite (IH _ Hevs).
Qed.

Ltac scenario_facts Hco Hone E :=
  cooperation Hco E;
  try (lazymatch type of E with
       | _ = ?o ?t (GetNumEndpoints ?i) =>
           let H1 := fresh "Hone1" in
           pose proof (Hone t i) as H1; rewrite <- E in H1
       end).

Ltac exec_frame_loop_ok Hwrite :=
  lazymatch goal with
  | |- context [@bind _ _ (frame_loop ?n ?h ?p ?f 0) ?k ?o ?t] =>
      let evs := fresh "evs" in
      let Hio := fresh "Hio" in
      let Hrun := fresh "Hrun" in
      let Hcalls := fresh "Hcalls" in
      let Hstream := fresh "Hstream" in
      destruct (frame_loop_first_ok o h p f ltac:(assumption) n t
                  (Hwrite t h))
        as (evs & Hrun & Hcalls & Hstream);
      pose proof (forallb_streaming_io h evs Hstream) as Hio;
      rewrite (bind_next _ _ _ _ _ _ Hrun); clear Hrun
  end.

(** C5, as the program has it.  On a cooperating platform whose
    interface reports one endpoint and accepts the frame on pipe 1, with
    fuel for the listing, [main] returns 0.  It matches on the vendor
    0x15E4 and the product 0x0053, queries pipe 1, writes the frame once
    to pipe 1 and once to pipe 2, and then streams the frame 200 times
    to pipe 1, each write followed by a sleep of 25000 microseconds.
    The frame has 514 bytes: 255, 225, 0, 0, 255, then 507 zeros, then
    255, 255. *)
Theorem end_to_end_scenario (o : oracle) fuel :
  cooperates o ->
  (forall t i, UInt8 (snd (o t (GetNumEndpoints i))) = 1) ->
  (forall t i, o t (WritePipe i 1 dmx) = kIOReturnSuccess) ->
  (2 <= fuel)%nat ->
  exists t i,
    run fuel o = Return 0 t /\
    map ev_call (filter is_criterion t) =
      [CFNumberCreate 0x15E4; CFNumberCreate 0x0053] /\
    map ev_call (filter is_query t) = [GetPipeProperties i 1] /\
    map ev_call (filter is_write t) =
      [WritePipe i 1 dmx; WritePipe i 2 dmx] ++
      repeat (WritePipe i 1 dmx) 200 /\
    map ev_call (filter is_sleep t) = repeat (usleep 25000) 200 /\
    dmx = [255; 225; 0; 0; 255] ++ repeat 0 507 ++ [255; 255].
Proof.
  intros Hco Hone Hwrite Hfuel. enter_main.
  repeat (exec_with ltac:(scenario_facts Hco Hone); tidy; try solve [absurd_branch]).
  all: exec_pipe_loop Hfuel.
  all: repeat (exec_with ltac:(scenario_facts Hco Hone); tidy; try solve [absurd_branch]).
  all: exec_frame_loop_ok Hwrite.
  all: repeat (exec_with ltac:(scenario_facts Hco Hone); tidy; try solve [absurd_branch]).
  all: unfold return_; do 2 eexists; split; [reflexivity|].
  all: rewrite Hone1 in Hq;
    change (map ev_call (filter is_query evs) = [GetPipeProperties h4 1]) in Hq.
  all: pose proof (frame_calls_writes _ _ _ _ _ Hcalls) as [Hw _].
  all: pose proof (frame_calls_sleeps _ _ _ _ _ Hcalls) as Hs.
  all: split; [evaluate; reflexivity|].
  all: split;
    [ evaluate; rewrite filter_app, map_app, Hq; evaluate; reflexivity |].
  all: split;
    [ evaluate; rewrite filter_app, map_app, Hw; evaluate; reflexivity |].
  all: split;
    [ evaluate; rewrite filter_app, map_app, Hs; evaluate;
      rewrite app_nil_r; reflexivity |].
  all: reflexivity.
Qed.

Lemma end_to_end_scenario_witness :
  exists t i,
    run 2 (platform one_pipe) = Return 0 t /\
    map ev_call (filter is_criterion t) =
      [CFNumberCreate 0x15E4; CFNumberCreate 0x0053] /\
    map ev_call (filter is_query t) = [GetPipeProperties i 1] /\
    map ev_call (filter is_write t) =
      [WritePipe i 1 dmx; WritePipe i 2 dmx] ++
      repeat (WritePipe i 1 dmx) 200 /\
    map ev_call (filter is_sleep t) = repeat (usleep 25000) 200 /\
    dmx = [255; 225; 0; 0; 255] ++ repeat 0 507 ++ [255; 255].
Proof.
  apply (end_to_end_scenario (platform one_pipe) 2).
  - apply platform_cooperates; reflexivity.
  - intros t i. reflexivity.
  - intros t i. reflexivity.
  - lia.
Defined.

(** C5, as the claim has it: a frame of 514 bytes that are zero except
    for byte 0.  In the scenario no write of the session carries that
    frame: byte 1 of every frame written is 225. *)
Lemma claimed_frame_is_never_written :
  ~ (exists t i pipeRef,
       run 2 (platform one_pipe) = Return 0 t /\
       In (WritePipe i pipeRef (255 :: repeat 0 513)) (map ev_call t)).
Proof.
  intros (t & i & pipeRef & Hrun & Hin).
  assert (E : run 2 (platform one_pipe) =
              Return 0 (trace_of (run 2 (platform one_pipe))))
    by (vm_compute; reflexivity).
  assert (Ht : t = trace_of (run 2 (platform one_pipe)))
    by exact (f_equal trace_of (eq_trans (eq_sym Hrun) E)).
  clear E Hrun. subst t.
  assert (Hall : forallb
            (fun c => match c with
                      | WritePipe _ _ buf => nth 1 buf 0 =? 225
                      | _ => true
                      end)
            (map ev_call (trace_of (run 2 (platform one_pipe)))) = true)
    by (vm_compute; reflexivity).
  rewrite forallb_forall in Hall. specialize (Hall _ Hin).
  cbn in Hall. discriminate Hall.
Qed.

Ltac trial_facts Hco E :=
  cooperation Hco E;
  try (lazymatch type of E with
       | _ = _ _ (WritePipe _ _ _) =>
           let Hk := fresh "Hk" in
           pose proof E as Hk;
           first [ rewrite trial_status_1 in Hk
                 | rewrite trial_status_2 in Hk
                 | clear Hk ]
       end).

(** C9.  Let the platform cooperate and answer the write announced for
    pipe 1 with [k1] and the write announced for pipe 2 with [k2], any
    two statuses.  Then [main] returns 0.  Before streaming starts it
    makes exactly these two writes, of the frame, and prints the status
    of each; after the start, the writes are those of the frame loop,
    all 200 or the first alone when the platform refuses it; and the
    teardown is complete. *)
Theorem trial_write_statuses_only_printed (o : oracle) k1 k2 fuel :
  cooperates o ->
  (255 <= fuel)%nat ->
  exists t d i loop_writes,
    run fuel (with_trial_statuses k1 k2 o) = Return 0 t /\
    filter is_write_or_report t =
      [Ev (WritePipe i 1 dmx) k1;
       Ev (printf "WritePipe(1): 0x%x (%s)\n" [Int k1; OK_or_FAIL k1]) tt;
       Ev (WritePipe i 2 dmx) k2;
       Ev (printf "WritePipe(2): 0x%x (%s)\n" [Int k2; OK_or_FAIL k2]) tt;
       Ev (printf "\n--- Sending 200 frames to pipe 1 (5 sec) ---\n" []) tt]
      ++ loop_writes /\
    (map ev_call loop_writes = repeat (WritePipe i 1 dmx) 200 \/
     exists kr, kr <> kIOReturnSuccess /\
                loop_writes = [Ev (WritePipe i 1 dmx) kr]) /\
    map ev_call (filter is_teardown t) =
      [USBInterfaceClose i; InterfaceRelease i;
       USBDeviceClose d; DeviceRelease d].
Proof.
  intros Hco Hfuel.
  pose proof (cooperates_with_trial_statuses k1 k2 o Hco) as Hco'.
  enter_main.
  repeat (exec_with ltac:(trial_facts Hco'); tidy; try solve [absurd_branch]).
  all: exec_pipe_loop Hfuel.
  all: repeat (first [exec_with ltac:(trial_facts Hco') | exec_loop]; tidy;
               try solve [absurd_branch]).
  all: unfold return_; subst.
  all: destruct Hshape as [Hcalls | (kr & Hkr & ->)].
  all: do 4 eexists; split; [reflexivity|].
  all: split;
    [ evaluate; rewrite ?filter_app; evaluate; rewrite ?app_nil_r; reflexivity |].
  all: split;
    [ first [ left; exact (frame_calls_reports _ _ _ _ _ Hcalls)
            | right; exists kr; split; [assumption | reflexivity] ] |].
  all: evaluate; reflexivity.
Qed.

Lemma trial_write_statuses_only_printed_witness :
  exists t d i loop_writes,
    run 255 (with_trial_statuses kIOReturnNotResponding kIOUSBUnknownPipeErr
               (platform one_pipe)) = Return 0 t /\
    filter is_write_or_report t =
      [Ev (WritePipe i 1 dmx) kIOReturnNotResponding;
       Ev (printf "WritePipe(1): 0x%x (%s)\n"
             [Int kIOReturnNotResponding; OK_or_FAIL kIOReturnNotResponding]) tt;
       Ev (WritePipe i 2 dmx) kIOUSBUnknownPipeErr;
       Ev (printf "WritePipe(2): 0x%x (%s)\n"
             [Int kIOUSBUnknownPipeErr; OK_or_FAIL kIOUSBUnknownPipeErr]) tt;
       Ev (printf "\n--- Sending 200 frames to pipe 1 (5 sec) ---\n" []) tt]
      ++ loop_writes /\
    (map ev_call loop_writes = repeat (WritePipe i 1 dmx) 200 \/
     exists kr, kr <> kIOReturnSuccess /\
                loop_writes = [Ev (WritePipe i 1 dmx) kr]) /\
    map ev_call (filter is_teardown t) =
      [USBInterfaceClose i; InterfaceRelease i;
       USBDeviceClose d; DeviceRelease d].
Proof.
  apply (trial_write_statuses_only_printed (platform one_pipe)
           kIOReturnNotResponding kIOUSBUnknownPipeErr 255).
  - apply platform_cooperates; reflexivity.
  - lia.
Defined.


(** * The rest of [main]: services, plug-ins, reports, outcomes *)

(** ** Disciplines, one event at a time *)

Section Kept.

Variables obtains uses releases : event -> option handle.

Lemma kept_release held e t x :
  releases e = Some x ->
  kept obtains uses releases held t ->
  kept obtains uses releases (x :: held) (e :: t).
Proof. cbn. intros ->. auto. Qed.

Lemma kept_plain held e t :
  releases e = None -> obtains e = None ->
  match uses e with Some x => In x held | None => True end ->
  kept obtains uses releases held t ->
  kept obtains uses releases held (e :: t).
Proof. cbn. intros -> ->. auto. Qed.

Lemma kept_obtain held e t x :
  releases e = None -> obtains e = Some x ->
  match uses e with Some y => In y held | None => True end ->
  kept obtains uses releases (held ++ [x]) t ->
  kept obtains uses releases held (e :: t).
Proof. cbn. intros -> ->. auto. Qed.

Lemma kept_neutral (q : event -> bool) held evs rest :
  (forall e, q e = true ->
     releases e = None /\ obtains e = None /\ uses e = None) ->
  forallb q evs = true ->
  kept obtains uses releases held rest ->
  kept obtains uses releases held (evs ++ rest).
Proof.
  intros Hq Hevs Hrest. induction evs as [|e evs IH]; [exact Hrest|].
  cbn in Hevs. apply andb_true_iff in Hevs as [He Hevs].
  destruct (Hq e He) as (Hr & Ho & Hu).
  cbn [app]. apply kept_plain; auto. now rewrite Hu.
Qed.

End Kept.

Section Followed.

Variable due : event -> option call.

Lemma each_followed_due e e' t c :
  due e = Some c -> ev_call e' = c ->
  each_followed due (e' :: t) -> each_followed due (e :: e' :: t).
Proof. intros Hd Hc Ht. cbn [each_followed]. rewrite Hd. auto. Qed.

Lemma each_followed_none e t :
  due e = None -> each_followed due t -> each_followed due (e :: t).
Proof. intros Hd Ht. cbn [each_followed]. rewrite Hd. auto. Qed.

Lemma each_followed_neutral (q : event -> bool) evs rest :
  (forall e, q e = true -> due e = None) ->
  forallb q evs = true ->
  each_followed due rest -> each_followed due (evs ++ rest).
Proof.
  intros Hq Hevs Hrest. induction evs as [|e evs IH]; [exact Hrest|].
  cbn in Hevs. apply andb_true_iff in Hevs as [He Hevs].
  cbn [app]. apply each_followed_none; auto.
Qed.

End Followed.

Section Continued.

Variable due : event -> option (list call).

Lemma each_continued_due e t cs :
  due e = Some cs -> begins_with cs t ->
  each_continued due t -> each_continued due (e :: t).
Proof. intros Hd Hcs Ht. cbn [each_continued]. rewrite Hd. auto. Qed.

Lemma each_continued_none e t :
  due e = None -> each_continued due t -> each_continued due (e :: t).
Proof. intros Hd Ht. cbn [each_continued]. rewrite Hd. auto. Qed.

Lemma each_continued_neutral (q : event -> bool) evs rest :
  (forall e, q e = true -> due e = None) ->
  forallb q evs = true ->
  each_continued due rest -> each_continued due (evs ++ rest).
Proof.
  intros Hq Hevs Hrest. induction evs as [|e evs IH]; [exact Hrest|].
  cbn in Hevs. apply andb_true_iff in Hevs as [He Hevs].
  cbn [app]. apply each_continued_none; auto.
Qed.

End Continued.

Lemma objects_io h e :
  is_io h e = true ->
  object_released e = None /\ object_obtained e = None /\ object_used e = None.
Proof.
  destruct e as [c r]. unfold is_io, is_listing, is_streaming.
  destruct c; cbn; try discriminate; auto; destruct r; auto.
Qed.

Lemma plugins_io h e :
  is_io h e = true ->
  plugin_released e = None /\ plugin_obtained e = None /\ plugin_used e = None.
Proof.
  destruct e as [c r]. unfold is_io, is_listing, is_streaming.
  destruct c; cbn; try discriminate; auto; destruct r; auto.
Qed.

Lemma release_due_io : forall h e, is_io h e = true -> release_due e = None.
Proof. by_call. Qed.

Lemma report_due_streaming :
  forall h e, is_streaming h e = true -> report_due e = None.
Proof. by_call. Qed.

Lemma matching_io : forall h e, is_io h e = true -> is_matching e = false.
Proof. by_call. Qed.

Lemma goes_on_io : forall h e, is_io h e = true -> goes_on e = None.
Proof. by_call. Qed.

#[local] Hint Resolve matching_io : neutral.

(** The pipe loop prints each query's answer at once. *)
Lemma pipe_loop_reported (o : oracle) h numEndpoints :
  h <> NULL ->
  forall fuel i t, exists evs,
    forallb (is_listing h) evs = true /\
    (forall rest,
       each_followed report_due rest ->
       each_followed report_due (evs ++ rest)) /\
    (pipe_loop fuel h i numEndpoints o t = Next tt (t ++ evs) \/
     pipe_loop fuel h i numEndpoints o t = OutOfFuel (t ++ evs)).
Proof.
  intros Hh. induction fuel as [|fuel IH]; intros i t.
  - exists []. rewrite app_nil_r. repeat split; auto.
  - cbn [pipe_loop]. destruct (i <=? numEndpoints) eqn:Hle.
    + do 3 exec.
      edestruct (IH (UInt8 (i + 1))) as (evs & Hio & Hrep & [Hrun|Hrun]);
        rewrite Hrun; eexists;
        (split; [|split;
           [| first [left; rewrite <- !app_assoc; reflexivity
                    | right; rewrite <- !app_assoc; reflexivity]]]);
        try (io_done Hio);
        (intros rest Hrest; cbn [app];
         eapply each_followed_due; [reflexivity | reflexivity |];
         apply each_followed_none; [reflexivity|]; auto).
    + exists []. rewrite app_nil_r. repeat split; auto.
Qed.

#[local] Hint Resolve release_due_io report_due_streaming : neutral.

(** ** Running [main] with the reports of the pipe loop *)

Ltac exec_loops :=
  lazymatch goal with
  | |- context [@bind _ _ (pipe_loop ?fuel ?h ?i ?n) ?k ?o ?t] =>
      let evs := fresh "evs" in
      let Hio := fresh "Hio" in
      let Hrun := fresh "Hrun" in
      let Hlist := fresh "Hlist" in
      let Hrep := fresh "Hrep" in
      destruct (pipe_loop_reported o h n ltac:(assumption) fuel i t)
        as (evs & Hlist & Hrep & [Hrun|Hrun]);
      pose proof (forallb_listing_io h evs Hlist) as Hio;
      [ rewrite (bind_next _ _ _ _ _ _ Hrun)
      | rewrite (bind_still_running _ _ _ _ _ Hrun) ];
      clear Hrun
  | _ => exec_loop
  end.

(** The trace of an outcome, as a list of events that ends in [[]]. *)
Ltac open_trace :=
  unfold return_; cbn [trace_of];
  try match goal with
      | |- context [?T ++ ?evs] =>
          is_var evs; rewrite <- (app_nil_r (T ++ evs))
      end;
  rewrite <- ?app_assoc; cbn [app]; unfold decided in *.

Ltac keeping io_lemma :=
  repeat first
    [ apply kept_release; [reflexivity|]
    | apply kept_plain; [reflexivity | decide_event | cbn; auto |]
    | eapply kept_obtain; [reflexivity | decide_event | cbn; auto | cbn [app]]
    | match goal with
      | Hio : forallb (is_io ?h) ?evs = true |- kept _ _ _ _ (?evs ++ _) =>
          apply (kept_neutral _ _ _ (is_io h) _ evs _ (io_lemma h) Hio)
      end ];
  lazymatch goal with
  | |- kept _ _ _ _ [] => exact eq_refl
  | _ => idtac
  end.

Ltac following :=
  repeat first
    [ eapply each_followed_due; [decide_event | reflexivity |]
    | apply each_followed_none; [decide_event |]
    | match goal with
      | Hrep : forall rest, each_followed ?due rest ->
                            each_followed ?due (?evs ++ rest)
        |- each_followed ?due (?evs ++ _) => apply Hrep
      end
    | match goal with
      | Hio : forallb ?q ?evs = true |- each_followed ?due (?evs ++ ?rest) =>
          apply (each_followed_neutral due q evs rest
                   ltac:(eauto 3 with neutral) Hio)
      end ];
  lazymatch goal with
  | |- each_followed _ [] => exact I
  | _ => idtac
  end.

Ltac continuing :=
  repeat first
    [ eapply each_continued_due;
      [ reflexivity | cbn [begins_with ev_call]; repeat split |]
    | apply each_continued_none; [reflexivity|]
    | match goal with
      | Hio : forallb (is_io ?h) ?evs = true
        |- each_continued ?due (?evs ++ ?rest) =>
          apply (each_continued_neutral due (is_io h) evs rest
                   (goes_on_io h) Hio)
      end ];
  lazymatch goal with
  | |- each_continued _ [] => exact I
  | _ => idtac
  end.

(** In every run, ended or not: the iterators and services obtained are
    used while held and released oldest first, and so are the plug-ins;
    each is released by the call that follows its one use; each
    status that the program prints at once is printed by the next
    call; and after the status of [SetConfiguration] and of
    [USBInterfaceOpen] comes the next step. *)
Lemma trace_disciplines (o : oracle) fuel r :
  run fuel o = r ->
  kept object_obtained object_used object_released [] (trace_of r) /\
  kept plugin_obtained plugin_used plugin_released [] (trace_of r) /\
  each_followed release_due (trace_of r) /\
  each_followed report_due (trace_of r) /\
  each_continued goes_on (trace_of r).
Proof.
  revert r. enter_main. repeat first [exec | exec_loops].
  all: intros ? <-; open_trace.
  all: split; [keeping objects_io|].
  all: split; [keeping plugins_io|].
  all: split; [following|].
  all: split; [following | continuing].
Qed.

(** * Values over a trace, one event at a time *)

Section Values.

Variable p : event -> bool.

Lemma filter_drop e l kept :
  p e = false -> filter p l = kept -> filter p (e :: l) = kept.
Proof. cbn. now intros ->. Qed.

Lemma filter_take e l kept :
  p e = true -> filter p l = kept -> filter p (e :: l) = e :: kept.
Proof. cbn. now intros -> ->. Qed.

Lemma filter_pass (q : event -> bool) evs rest kept :
  (forall e, q e = true -> p e = false) ->
  forallb q evs = true ->
  filter p rest = kept -> filter p (evs ++ rest) = kept.
Proof. intros Hq Hevs <-. now apply filter_neutral with (q := q). Qed.

Lemma filter_part evs rest kept :
  filter p rest = kept -> filter p (evs ++ rest) = filter p evs ++ kept.
Proof. intros <-. apply filter_app. Qed.

Lemma filter_end : filter p [] = [].
Proof. reflexivity. Qed.

Lemma existsb_end : existsb p [] = false.
Proof. reflexivity. Qed.

Lemma existsb_drop e l b :
  p e = false -> existsb p l = b -> existsb p (e :: l) = b.
Proof. cbn. now intros ->. Qed.

Lemma existsb_found e l : p e = true -> existsb p (e :: l) = true.
Proof. cbn. now intros ->. Qed.

Lemma existsb_pass (q : event -> bool) evs rest b :
  (forall e, q e = true -> p e = false) ->
  forallb q evs = true ->
  existsb p rest = b -> existsb p (evs ++ rest) = b.
Proof. intros Hq Hevs <-. now apply existsb_neutral with (q := q). Qed.

End Values.

Lemma acquisitions_drop e t bound :
  acquired e = None -> acquisitions t = bound -> acquisitions (e :: t) = bound.
Proof. intros He <-. now apply acquisitions_skip. Qed.

Lemma acquisitions_take e t x bound :
  acquired e = Some x ->
  acquisitions t = bound -> acquisitions (e :: t) = x :: bound.
Proof. intros He <-. now apply acquisitions_keep. Qed.

Lemma acquisitions_pass (q : event -> bool) evs rest bound :
  (forall e, q e = true -> acquired e = None) ->
  forallb q evs = true ->
  acquisitions rest = bound -> acquisitions (evs ++ rest) = bound.
Proof. intros Hq Hevs <-. now apply acquisitions_neutral with (q := q). Qed.

Lemma acquisitions_end : acquisitions [] = [].
Proof. reflexivity. Qed.

(** The outcome [r] of the path at hand, with its trace in the form of a
    list that ends in [[]]. *)
Ltac open_leaf :=
  let r := fresh "r" in
  let E := fresh "E" in
  intros r E; unfold return_ in E;
  try match type of E with
      | context [?T ++ ?evs] =>
          is_var evs; rewrite <- (app_nil_r (T ++ evs)) in E
      end;
  rewrite <- ?app_assoc in E; cbn [app] in E;
  subst; cbn [trace_of]; unfold decided in *.

(** The value of a filter, of a search or of the acquisitions over the
    trace of the path at hand, which [open_leaf] has put in the form of
    a list. *)
Ltac valuing :=
  repeat first
    [ apply filter_drop; [decide_event|]
    | apply filter_take; [decide_event|]
    | apply existsb_drop; [decide_event|]
    | apply existsb_found; decide_event
    | apply acquisitions_drop; [decide_event|]
    | eapply acquisitions_take; [decide_event|]
    | match goal with
      | Hio : forallb ?q ?evs = true |- filter ?p (?evs ++ ?rest) = _ =>
          apply (filter_pass p q evs rest _ ltac:(eauto 3 with neutral) Hio)
      | Hio : forallb ?q ?evs = true |- existsb ?p (?evs ++ ?rest) = _ =>
          apply (existsb_pass p q evs rest _ ltac:(eauto 3 with neutral) Hio)
      | Hio : forallb ?q ?evs = true |- acquisitions (?evs ++ ?rest) = _ =>
          apply (acquisitions_pass q evs rest _ ltac:(eauto 3 with neutral) Hio)
      end
    | apply filter_part ];
  lazymatch goal with
  | |- filter _ [] = _ => apply filter_end
  | |- existsb _ [] = _ => apply existsb_end
  | |- acquisitions [] = _ => apply acquisitions_end
  | _ => idtac
  end.

(** [value X as H]: the value of [X], as the equation [H], used to
    rewrite the goal. *)
Tactic Notation "value" constr(X) "as" ident(H) :=
  eassert (H : X = _) by solve [valuing]; rewrite ?H.

(** The values of the statement at hand, for the predicate [p]. *)
Ltac filtered p H :=
  match goal with
  | |- context [filter p ?T] => value (filter p T) as H
  end.

Ltac searched p H :=
  match goal with
  | |- context [existsb p ?T] => value (existsb p T) as H
  end.

Ltac bound H :=
  match goal with
  | |- context [acquisitions ?T] => value (acquisitions T) as H
  end.

Lemma ends_with_here suffix : ends_with suffix suffix.
Proof. now exists []. Qed.

Lemma ends_with_later suffix e t :
  ends_with suffix t -> ends_with suffix (e :: t).
Proof. intros [t0 ->]. now exists (e :: t0). Qed.

(** ** What a session does, by its outcome *)

(** In every run: the matching calls are those of one dictionary; the
    session goes beyond matching only after it found the device; a NULL
    pointer is dereferenced only when the interface plug-in is missing;
    a session that returns 0 made three writes and no sleep, or 202
    writes and 200 sleeps; a session that returns 1 made no call on the
    interface and did not sleep; a session that ends on a NULL pointer
    had bound and opened the device interface, and made no teardown
    call; a session that returns kept the handle discipline. *)
Lemma session_outcomes (o : oracle) fuel r :
  run fuel o = r ->
  (filter is_matching (trace_of r) =
     [Ev (IOServiceMatching kIOUSBDeviceClassName) NULL] \/
   exists matchingDict vid pid a,
     matchingDict <> NULL /\
     filter is_matching (trace_of r) =
       [Ev (IOServiceMatching kIOUSBDeviceClassName) matchingDict;
        Ev (CFNumberCreate VID) vid;
        Ev (CFDictionarySetValue matchingDict kUSBVendorID vid) tt;
        Ev (CFNumberCreate PID) pid;
        Ev (CFDictionarySetValue matchingDict kUSBProductID pid) tt;
        Ev (IOServiceGetMatchingServices matchingDict) a]) /\
  (existsb (prints "Found device\n") (trace_of r) = true \/
   r = Return 1 (trace_of r) /\
   filter is_beyond_matching (trace_of r) = []) /\
  (forall t, r = Fault t ->
     exists service,
       ends_with
         [Ev (IOCreatePlugInInterfaceForService service
                kIOUSBInterfaceUserClientTypeID) (kIOReturnSuccess, NULL);
          Ev (IOObjectRelease service) tt] t) /\
  (forall t, r = Return 0 t ->
     exists i k1 k2,
       (exists kr,
          kr <> kIOReturnSuccess /\
          filter is_write t =
            [Ev (WritePipe i 1 dmx) k1; Ev (WritePipe i 2 dmx) k2;
             Ev (WritePipe i 1 dmx) kr] /\
          filter is_sleep t = []) \/
       (exists loop_writes,
          filter is_write t =
            [Ev (WritePipe i 1 dmx) k1; Ev (WritePipe i 2 dmx) k2] ++
            loop_writes /\
          map ev_call loop_writes = repeat (WritePipe i 1 dmx) 200 /\
          map ev_call (filter is_sleep t) = repeat (usleep 25000) 200)) /\
  (forall t, r = Return 1 t -> filter is_interface_io t = []) /\
  (forall t, r = Fault t ->
     exists d,
       acquisitions t = [(kIOUSBDeviceInterfaceID, d)] /\
       existsb opens t = true /\
       filter is_teardown t = []) /\
  (forall code t, r = Return code t -> disciplined [] t).
Proof.
  revert r. exec_main.
  all: try (destruct Hshape as [Hcalls | (kr & Hkr & ->)]).
  all: open_leaf.
  all: filtered is_matching Hm.
  all: split;
    [ first [ left; reflexivity
            | right; do 4 eexists; split; [|reflexivity]; assumption ] |].
  all: searched (prints "Found device\n") Hfound.
  all: split;
    [ first [ left; reflexivity
            | right; split; [reflexivity|];
              filtered is_beyond_matching Hb; reflexivity ] |].
  all: split;
    [ intros t E; try discriminate E; injection E as <-;
      eexists; repeat first [apply ends_with_here | apply ends_with_later] |].
  all: split;
    [| split;
       [| split;
          [| intros code t E; try discriminate E; injection E as <- <-;
             discipline ] ] ];
    intros t E; try discriminate E; injection E as <-.
  all: lazymatch goal with
       | |- filter is_interface_io _ = [] =>
           filtered is_interface_io Hi; reflexivity
       | |- context [acquisitions] =>
           bound Hq; searched opens Ho; filtered is_teardown Ht;
           eexists; repeat split
       | _ => idtac
       end.
  all: filtered is_write Hw; filtered is_sleep Hs; rewrite ?app_nil_r.
  all: do 3 eexists.
  all: first
    [ left; exists kr; split; [assumption|]; split; reflexivity
    | right; eexists; split; [reflexivity|]; split;
      [ exact (proj1 (frame_calls_writes _ _ _ _ _ Hcalls))
      | exact (frame_calls_sleeps _ _ _ _ _ Hcalls) ] ].
Qed.

(** * The exit status *)

Lemma acquisition_io : forall h e, is_io h e = true -> is_acquisition e = false.
Proof. by_call. Qed.

Lemma fails_io : forall h e, is_io h e = true -> fails e = false.
Proof. by_call. Qed.

#[local] Hint Resolve acquisition_io fails_io : neutral.

Lemma fails_at_last_one e : fails e = true -> fails_at_last [e].
Proof. intros H. exact H. Qed.

Lemma fails_at_last_more e e' answers :
  fails e = false -> fails_at_last (e' :: answers) ->
  fails_at_last (e :: e' :: answers).
Proof. intros H H'. split; assumption. Qed.

(** With 255 endpoints the listing makes calls of the kind [is_listing]
    until the fuel is spent. *)
Lemma pipe_loop_255_listing (o : oracle) h :
  h <> NULL ->
  forall fuel i,
    0 <= i <= 255 ->
    forall t, exists evs,
      pipe_loop fuel h i 255 o t = OutOfFuel (t ++ evs) /\
      forallb (is_listing h) evs = true.
Proof.
  intros Hh fuel i Hi t.
  destruct (pipe_loop_255 o h Hh fuel i Hi t) as (evs & Hrun & _).
  destruct (pipe_loop_shape o h Hh 255 fuel i t) as (evs' & Hlist & [H | H]);
    rewrite H in Hrun; [discriminate|].
  injection Hrun as Hrun. apply app_inv_head in Hrun. subst evs'.
  exists evs. split; assumption.
Qed.

(** The answers of the acquisition on the path at hand: all but the
    last succeed. *)
Ltac failing :=
  repeat first
    [ apply fails_at_last_one; decide_event
    | apply fails_at_last_more; [decide_event|] ].

(** The leaf of a path on which the acquisition fails. *)
Ltac failed_leaf :=
  let Hs := fresh "Hs" in
  let Ha := fresh "Ha" in
  let Hf := fresh "Hf" in
  split; [reflexivity|];
  unfold streaming_started;
  searched (prints "\n--- Sending 200 frames to pipe 1 (5 sec) ---\n") Hs;
  filtered is_acquisition Ha;
  filtered fatal Hf;
  split; [reflexivity|]; split; [failing | reflexivity].

(** The leaf of a path on which the acquisition goes through. *)
Ltac acquired_leaf :=
  let Hs := fresh "Hs" in
  let Hf := fresh "Hf" in
  split; [reflexivity|];
  unfold streaming_started;
  searched (prints "\n--- Sending 200 frames to pipe 1 (5 sec) ---\n") Hs;
  filtered fails Hf;
  split; [reflexivity|]; split; [reflexivity|].

(** C4.  How a session ends is decided by the answers of the
    acquisition (steps 1 to 3, 5 and 6), and by nothing else.  With fuel
    for 256 iterations of the pipe loop, one of four holds.  [main]
    returns 0: every answer of the acquisition was a success, the
    answers are those of a complete acquisition, and streaming was
    reached; the statuses of the configuration, of the interface open
    and of the writes play no part.  [main] returns 1: the last answer
    of the acquisition was a failure, the only one, the program tested
    it, and streaming was not reached.  The process is killed on a NULL
    pointer, so its status is not 0: the last answer of the acquisition
    was a failure, the only one, and it is the missing interface
    plug-in, which the program does not test.  Or the session does not
    end, and has no status: the acquisition succeeded and the interface
    reported 255 endpoints. *)
Theorem exit_status (o : oracle) fuel r :
  (256 <= fuel)%nat ->
  run fuel o = r ->
  let t := trace_of r in
  let answers := filter is_acquisition t in
  (r = Return 0 t /\ streaming_started t = true /\ filter fails t = [] /\
   exists matchingDict iterator usbDevice plugIn d opening
          iterator' usbInterface plugIn' i,
     answers = acquisition matchingDict iterator usbDevice plugIn d opening
                 iterator' usbInterface plugIn' i /\
     opening_of d opening) \/
  (r = Return 1 t /\ streaming_started t = false /\
   fails_at_last answers /\ length (filter fatal t) = 1%nat) \/
  (r = Fault t /\ streaming_started t = false /\
   fails_at_last answers /\ filter fatal t = []) \/
  (r = OutOfFuel t /\ streaming_started t = false /\ filter fails t = [] /\
   exists i kr n, In (Ev (GetNumEndpoints i) (kr, n)) t /\ UInt8 n = 255).
Proof.
  intros Hfuel. revert r. enter_main. repeat exec.
  all: lazymatch goal with
       | |- context [pipe_loop] => idtac
       | _ =>
           open_leaf;
           first [ right; left; failed_leaf | right; right; left; failed_leaf ]
       end.
  all: match goal with
       | |- context [pipe_loop _ _ _ (UInt8 ?z)] =>
           assert (Hz : 0 <= UInt8 z < 256)
             by (unfold UInt8; apply Z.mod_pos_bound; lia);
           destruct (Z.eq_dec (UInt8 z) 255) as [E255 | E255]
       end.
  all: try (rewrite E255;
            match goal with
            | |- context [@bind _ _ (pipe_loop ?f ?h 1 255) ?k ?o ?t] =>
                destruct (pipe_loop_255_listing o h ltac:(assumption) f 1
                            ltac:(lia) t) as (evs & Hrun & Hlist);
                pose proof (forallb_listing_io h evs Hlist) as Hio;
                rewrite (bind_still_running _ _ _ _ _ Hrun)
            end;
            open_leaf;
            right; right; right; acquired_leaf;
            do 3 eexists; split; [|exact E255];
            repeat first [left; reflexivity | right]).
  all: match goal with H : UInt8 ?z <> 255 |- _ =>
         assert (Hlt : UInt8 z < 255) by lia end.
  all: exec_pipe_loop Hfuel.
  all: repeat first [exec | exec_loop].
  all: open_leaf.
  all: left; acquired_leaf.
  all: filtered is_acquisition Ha.
  all: do 5 eexists.
  all: first
    [ eexists [_]; do 4 eexists; split; [reflexivity | left; reflexivity]
    | eexists [_; _]; do 4 eexists; split;
      [ reflexivity
      | right; eexists; split; cycle 1; [reflexivity | assumption] ] ].
Qed.

Lemma exit_status_witness :
  let r := run 256 (platform no_pipe) in
  let t := trace_of r in
  let answers := filter is_acquisition t in
  (r = Return 0 t /\
   filter is_write t =
     [Ev (WritePipe 0x2500 1 dmx) kIOUSBUnknownPipeErr;
      Ev (WritePipe 0x2500 2 dmx) kIOUSBUnknownPipeErr;
      Ev (WritePipe 0x2500 1 dmx) kIOUSBUnknownPipeErr]) /\
  ((r = Return 0 t /\ streaming_started t = true /\ filter fails t = [] /\
    exists matchingDict iterator usbDevice plugIn d opening
           iterator' usbInterface plugIn' i,
      answers = acquisition matchingDict iterator usbDevice plugIn d opening
                  iterator' usbInterface plugIn' i /\
      opening_of d opening) \/
   (r = Return 1 t /\ streaming_started t = false /\
    fails_at_last answers /\ length (filter fatal t) = 1%nat) \/
   (r = Fault t /\ streaming_started t = false /\
    fails_at_last answers /\ filter fatal t = []) \/
   (r = OutOfFuel t /\ streaming_started t = false /\ filter fails t = [] /\
    exists i kr n, In (Ev (GetNumEndpoints i) (kr, n)) t /\ UInt8 n = 255)).
Proof.
  split.
  - split; vm_compute; reflexivity.
  - apply (exit_status (platform no_pipe) 256 _ (le_n 256) eq_refl).
Defined.

(** * The open step *)

(** C3.  In every run, one of these holds.  The session ended before
    the open step: no device interface was bound, [main] returned 1, and
    no attempt was made.  Or the device interface [d] was bound, and the
    attempts to open it are: one [USBDeviceOpen] that succeeded; or a
    refused [USBDeviceOpen] followed by exactly one [USBDeviceOpenSeize]
    on the same device interface, that succeeded; or a refused
    [USBDeviceOpen] followed by exactly one refused
    [USBDeviceOpenSeize].  The failure of the open step is reported in
    the last case only; then the device is not reported as opened,
    [main] returns 1, no other handle was bound and the trace has no
    call of a later step: no configuration, no interface lookup or
    binding, no call on an interface.  In the two cases before it, the
    device is reported as opened. *)
Theorem open_then_seize_once (o : oracle) fuel r :
  run fuel o = r ->
  let t := trace_of r in
  let attempts := filter is_open_attempt t in
  let failed := existsb (prints "USBDeviceOpenSeize also failed: 0x%x\n") t in
  let opened := existsb (prints "Device opened\n") t in
  (acquisitions t = [] /\ r = Return 1 t /\
   attempts = [] /\ failed = false /\ opened = false) \/
  (exists d others,
     acquisitions t = (kIOUSBDeviceInterfaceID, d) :: others /\
     ((attempts = [Ev (USBDeviceOpen d) kIOReturnSuccess] /\
       failed = false /\ opened = true) \/
      (exists kr,
         kr <> kIOReturnSuccess /\
         attempts = [Ev (USBDeviceOpen d) kr;
                     Ev (USBDeviceOpenSeize d) kIOReturnSuccess] /\
         failed = false /\ opened = true) \/
      (exists kr kr',
         kr <> kIOReturnSuccess /\ kr' <> kIOReturnSuccess /\
         attempts = [Ev (USBDeviceOpen d) kr; Ev (USBDeviceOpenSeize d) kr'] /\
         failed = true /\ opened = false /\
         r = Return 1 t /\ others = [] /\
         filter is_interface_step t = []))).
Proof.
  revert r. exec_main.
  all: open_leaf; cbv zeta.
  all: filtered is_open_attempt Ha.
  all: bound Hq.
  all: searched (prints "USBDeviceOpenSeize also failed: 0x%x\n") Hf.
  all: searched (prints "Device opened\n") Ho.
  all: lazymatch type of Ha with
       | _ = [] => left; repeat split
       | _ = [_] =>
           right; do 2 eexists; split; [reflexivity|];
           left; repeat split
       | _ = [Ev _ ?kr; Ev _ ?kr'] =>
           right; do 2 eexists; split; [reflexivity|]; right;
           lazymatch type of Hf with
           | _ = false =>
               left; exists kr; split; [assumption|]; repeat split
           | _ = true =>
               right; exists kr, kr';
               split; [assumption|]; split; [assumption|];
               do 5 (split; [reflexivity|]);
               filtered is_interface_step Hi; reflexivity
           end
       end.
Qed.

Lemma open_then_seize_once_witness :
  let r := run 2 (platform refuses_open) in
  let t := trace_of r in
  let attempts := filter is_open_attempt t in
  let failed := existsb (prints "USBDeviceOpenSeize also failed: 0x%x\n") t in
  let opened := existsb (prints "Device opened\n") t in
  (attempts =
     [Ev (USBDeviceOpen 0x2400) kIOReturnExclusiveAccess;
      Ev (USBDeviceOpenSeize 0x2400) kIOReturnExclusiveAccess] /\
   r = Return 1 t) /\
  ((acquisitions t = [] /\ r = Return 1 t /\
    attempts = [] /\ failed = false /\ opened = false) \/
   (exists d others,
      acquisitions t = (kIOUSBDeviceInterfaceID, d) :: others /\
      ((attempts = [Ev (USBDeviceOpen d) kIOReturnSuccess] /\
        failed = false /\ opened = true) \/
       (exists kr,
          kr <> kIOReturnSuccess /\
          attempts = [Ev (USBDeviceOpen d) kr;
                      Ev (USBDeviceOpenSeize d) kIOReturnSuccess] /\
          failed = false /\ opened = true) \/
       (exists kr kr',
          kr <> kIOReturnSuccess /\ kr' <> kIOReturnSuccess /\
          attempts = [Ev (USBDeviceOpen d) kr; Ev (USBDeviceOpenSeize d) kr'] /\
          failed = true /\ opened = false /\
          r = Return 1 t /\ others = [] /\
          filter is_interface_step t = [])))).
Proof.
  split.
  - split; vm_compute; reflexivity.
  - exact (open_then_seize_once (platform refuses_open) 2 _ eq_refl).
Defined.

(** * The handles of a session, by the way it ends *)

(** A trace without a close or release call keeps the handle discipline
    only if no handle is held and none is acquired. *)
Lemma discipline_needs_teardown held t :
  disciplined held t -> filter is_teardown t = [] ->
  held = [] /\ acquisitions t = [].
Proof.
  revert held. induction t as [|e t IH]; intros held Hd Ht.
  - split; [exact Hd | reflexivity].
  - cbn [disciplined] in Hd. cbn [filter] in Ht.
    destruct (releases e) eqn:Hr.
    + destruct e as [c r]. destruct c; cbn in Hr; try discriminate Hr;
        cbn in Ht; discriminate Ht.
    + destruct Hd as [_ Hd].
      destruct (is_teardown e); [discriminate Ht|].
      destruct (IH _ Hd Ht) as [Hheld Hacq].
      unfold acquisitions in *. cbn [flat_map].
      destruct (acquired e); [discriminate Hheld|].
      rewrite Hacq. split; [exact Hheld | reflexivity].
Qed.

(** C1.  A session that returns, with whichever code, keeps the handle
    discipline: every call goes through a handle that was acquired and
    is not yet released, so a close comes before the release; every
    release releases the handle acquired last; and no handle is held at
    the end.  A session that ends at line 131 does not.  There the
    creation of the interface plug-in returned [kIOReturnSuccess] and no
    plug-in: line 124 lets the program go on (line 63 tests the pointer
    too) and [QueryInterface] goes through the NULL plug-in.  At that
    point the device interface [d] is bound and opened, and the session
    has made no close and no release call: the handle acquired before
    the failing step is leaked. *)
Theorem handles_released_unless_plugin_is_null (o : oracle) fuel r :
  run fuel o = r ->
  (forall code t, r = Return code t -> disciplined [] t) /\
  (forall t, r = Fault t ->
     (exists service,
        ends_with
          [Ev (IOCreatePlugInInterfaceForService service
                 kIOUSBInterfaceUserClientTypeID) (kIOReturnSuccess, NULL);
           Ev (IOObjectRelease service) tt] t) /\
     (exists d,
        acquisitions t = [(kIOUSBDeviceInterfaceID, d)] /\
        existsb opens t = true /\
        filter is_teardown t = []) /\
     ~ disciplined [] t).
Proof.
  intros Hrun.
  pose proof (session_outcomes o fuel r Hrun)
    as (_ & _ & Hend & _ & _ & Hleak & Hkept).
  split; [exact Hkept|].
  intros t Hfault.
  split; [exact (Hend t Hfault)|]. split; [exact (Hleak t Hfault)|].
  intros Hd. destruct (Hleak t Hfault) as (d & Hacq & _ & Hnone).
  destruct (discipline_needs_teardown [] t Hd Hnone) as [_ Hacq'].
  rewrite Hacq in Hacq'. discriminate Hacq'.
Qed.

Lemma handles_released_unless_plugin_is_null_witness :
  let r := run 2 (without_interface_plugin (platform one_pipe)) in
  let t := trace_of r in
  r = Fault t /\
  (exists service,
     ends_with
       [Ev (IOCreatePlugInInterfaceForService service
              kIOUSBInterfaceUserClientTypeID) (kIOReturnSuccess, NULL);
        Ev (IOObjectRelease service) tt] t) /\
  (exists d,
     acquisitions t = [(kIOUSBDeviceInterfaceID, d)] /\
     existsb opens t = true /\
     filter is_teardown t = []) /\
  ~ disciplined [] t.
Proof.
  assert (Hfault : run 2 (without_interface_plugin (platform one_pipe)) =
                   Fault (trace_of (run 2 (without_interface_plugin
                                              (platform one_pipe)))))
    by (vm_compute; reflexivity).
  split; [exact Hfault|].
  exact (proj2 (handles_released_unless_plugin_is_null
                  (without_interface_plugin (platform one_pipe)) 2 _ eq_refl)
           _ Hfault).
Defined.

(** * Statuses that are not fatal *)

Ltac status_facts Hco E :=
  cooperation Hco E;
  try (lazymatch type of E with
       | _ = _ _ (SetConfiguration _ _) =>
           let Hk := fresh "Hkc" in
           pose proof E as Hk; cbn [with_statuses] in Hk
       | _ = _ _ (USBInterfaceOpen _) =>
           let Hk := fresh "Hko" in
           pose proof E as Hk; cbn [with_statuses] in Hk
       end).

(** C7.  On every platform and in every run, whatever the status of
    [SetConfiguration], the next two calls are the print of that status
    and [CreateInterfaceIterator] on the same device interface; and
    whatever the status of [USBInterfaceOpen], the next two calls are
    the print of that status and [GetNumEndpoints] on the same
    interface.  And let the platform cooperate in all but this: it
    answers [SetConfiguration] with [kc] and [USBInterfaceOpen] with
    [ko], any two statuses.  Then the session is the same for all [kc]
    and [ko]: [main] returns 0; its steps from configuration on are the
    configuration, answered [kc], the interface lookup, the interface
    open, answered [ko], the endpoint count and the start of streaming;
    each of the two statuses is printed once; there is one query for
    each pipe; the frame is written to pipe 1, to pipe 2, and then by
    the frame loop, 200 times with 200 sleeps, or once with no sleep
    when the loop's first write is refused; and the teardown is
    complete. *)
Theorem configure_and_open_interface_not_fatal (o : oracle) fuel :
  each_continued goes_on (trace_of (run fuel o)) /\
  forall kc ko,
    cooperates o ->
    (255 <= fuel)%nat ->
    exists t d i it kr n k1 k2 loop_writes,
      run fuel (with_statuses kc ko o) = Return 0 t /\
      filter is_step t =
        [Ev (SetConfiguration d 1) kc;
         Ev (CreateInterfaceIterator d request) (kIOReturnSuccess, it);
         Ev (USBInterfaceOpen i) ko;
         Ev (GetNumEndpoints i) (kr, n);
         Ev (printf "\n--- Sending 200 frames to pipe 1 (5 sec) ---\n" []) tt] /\
      filter (prints "SetConfiguration(1): 0x%x\n") t =
        [Ev (printf "SetConfiguration(1): 0x%x\n" [Int kc]) tt] /\
      filter (prints "USBInterfaceOpen: 0x%x\n") t =
        [Ev (printf "USBInterfaceOpen: 0x%x\n" [Int ko]) tt] /\
      map ev_call (filter is_query t) =
        map (GetPipeProperties i) (indices 1 (Z.to_nat (UInt8 n))) /\
      filter is_write t =
        [Ev (WritePipe i 1 dmx) k1; Ev (WritePipe i 2 dmx) k2] ++
        loop_writes /\
      ((map ev_call loop_writes = repeat (WritePipe i 1 dmx) 200 /\
        map ev_call (filter is_sleep t) = repeat (usleep 25000) 200) \/
       (exists kr',
          kr' <> kIOReturnSuccess /\
          loop_writes = [Ev (WritePipe i 1 dmx) kr'] /\
          filter is_sleep t = [])) /\
      map ev_call (filter is_teardown t) =
        [USBInterfaceClose i; InterfaceRelease i;
         USBDeviceClose d; DeviceRelease d].
Proof.
  split.
  - exact (proj2 (proj2 (proj2 (proj2 (trace_disciplines o fuel _ eq_refl))))).
  - intros kc ko Hco Hfuel.
    pose proof (cooperates_with_statuses kc ko o Hco) as Hco'.
    enter_main.
    repeat (exec_with ltac:(status_facts Hco'); tidy; try solve [absurd_branch]).
    all: exec_pipe_loop Hfuel.
    all: repeat (first [exec_with ltac:(status_facts Hco') | exec_loop]; tidy;
                 try solve [absurd_branch]).
    all: destruct Hshape as [Hcalls | (kr' & Hkr & ->)].
    all: unfold return_; do 9 eexists; split; [reflexivity|].
    all: subst; open_trace.
    all: filtered is_step Hst; split; [reflexivity|].
    all: filtered (prints "SetConfiguration(1): 0x%x\n") Hpc;
      split; [reflexivity|].
    all: filtered (prints "USBInterfaceOpen: 0x%x\n") Hpo;
      split; [reflexivity|].
    all: filtered is_query Hqs; rewrite ?app_nil_r;
      split; [rewrite Hq; f_equal; f_equal; f_equal; lia|].
    all: filtered is_write Hw; filtered is_sleep Hs; rewrite ?app_nil_r;
      split; [reflexivity|].
    all: filtered is_teardown Ht; split; [|reflexivity].
    all: first
      [ right; exists kr'; split; [assumption|]; split; reflexivity
      | left; split;
        [ exact (proj1 (frame_calls_writes _ _ _ _ _ Hcalls))
        | exact (frame_calls_sleeps _ _ _ _ _ Hcalls) ] ].
Qed.

Lemma configure_and_open_interface_not_fatal_witness :
  exists t d i it kr n k1 k2 loop_writes,
    run 255 (with_statuses kIOReturnError kIOReturnError (platform one_pipe)) =
      Return 0 t /\
    filter is_step t =
      [Ev (SetConfiguration d 1) kIOReturnError;
       Ev (CreateInterfaceIterator d request) (kIOReturnSuccess, it);
       Ev (USBInterfaceOpen i) kIOReturnError;
       Ev (GetNumEndpoints i) (kr, n);
       Ev (printf "\n--- Sending 200 frames to pipe 1 (5 sec) ---\n" []) tt] /\
    filter (prints "SetConfiguration(1): 0x%x\n") t =
      [Ev (printf "SetConfiguration(1): 0x%x\n" [Int kIOReturnError]) tt] /\
    filter (prints "USBInterfaceOpen: 0x%x\n") t =
      [Ev (printf "USBInterfaceOpen: 0x%x\n" [Int kIOReturnError]) tt] /\
    map ev_call (filter is_query t) =
      map (GetPipeProperties i) (indices 1 (Z.to_nat (UInt8 n))) /\
    filter is_write t =
      [Ev (WritePipe i 1 dmx) k1; Ev (WritePipe i 2 dmx) k2] ++
      loop_writes /\
    ((map ev_call loop_writes = repeat (WritePipe i 1 dmx) 200 /\
      map ev_call (filter is_sleep t) = repeat (usleep 25000) 200) \/
     (exists kr',
        kr' <> kIOReturnSuccess /\
        loop_writes = [Ev (WritePipe i 1 dmx) kr'] /\
        filter is_sleep t = [])) /\
    map ev_call (filter is_teardown t) =
      [USBInterfaceClose i; InterfaceRelease i;
       USBDeviceClose d; DeviceRelease d].
Proof.
  apply (proj2 (configure_and_open_interface_not_fatal (platform one_pipe) 255)
           kIOReturnError kIOReturnError).
  - apply platform_cooperates; reflexivity.
  - lia.
Defined.

(** ** Properties of every session *)

(** X1.  Lines 45-62 and 103-123.  The kernel objects [main] obtains
    (the two iterators, the device service, the interface service) are
    released one after the other, each before the next is obtained:
    whatever the platform answers and however the run ends, every use
    and every release is of an object that is held, a release releases
    the object held longest, and none is held at the end of the
    trace. *)
Theorem service_objects_released (o : oracle) fuel :
  kept object_obtained object_used object_released [] (trace_of (run fuel o)).
Proof. exact (proj1 (trace_disciplines o fuel _ eq_refl)). Qed.


(** X3.  Lines 51-52, 60-62, 68-71, 111-112, 121-123 and 131-134.  An
    iterator is released by the call that follows its one
    [IOIteratorNext], a service by the call that follows the creation
    of its plug-in, a plug-in by the call that follows its
    [QueryInterface]: before the result of the call is tested, so on the
    failing paths too. *)
Theorem released_right_after_use (o : oracle) fuel :
  each_followed release_due (trace_of (run fuel o)).
Proof.
  exact (proj1 (proj2 (proj2 (trace_disciplines o fuel _ eq_refl)))).
Qed.

(** X4.  Lines 45-49, 79-94, 103-105 and 144-158.  The status of a call
    that [main] reports is printed by the very next call, with the
    format of that step and the status as returned: the failure of
    [IOServiceGetMatchingServices] and of [CreateInterfaceIterator], the
    outcome of both open attempts, and in every case the status of
    [SetConfiguration], [USBInterfaceOpen], [GetNumEndpoints] (with the
    count read as a [UInt8]) and [GetPipeProperties]. *)
Theorem statuses_reported_at_once (o : oracle) fuel :
  each_followed report_due (trace_of (run fuel o)).
Proof.
  exact (proj1 (proj2 (proj2 (proj2 (trace_disciplines o fuel _ eq_refl))))).
Qed.

(** X5.  Lines 34-45.  The matching calls of a session are those of one
    dictionary: when [IOServiceMatching] gives none, no other matching
    call is made; otherwise the vendor number made from [VID] and the
    product number made from [PID] are stored in that dictionary under
    their keys, in this order, and the dictionary is handed to one
    [IOServiceGetMatchingServices]. *)
Theorem one_matching_dictionary (o : oracle) fuel :
  filter is_matching (trace_of (run fuel o)) =
    [Ev (IOServiceMatching kIOUSBDeviceClassName) NULL] \/
  exists matchingDict vid pid a,
    matchingDict <> NULL /\
    filter is_matching (trace_of (run fuel o)) =
      [Ev (IOServiceMatching kIOUSBDeviceClassName) matchingDict;
       Ev (CFNumberCreate VID) vid;
       Ev (CFDictionarySetValue matchingDict kUSBVendorID vid) tt;
       Ev (CFNumberCreate PID) pid;
       Ev (CFDictionarySetValue matchingDict kUSBProductID pid) tt;
       Ev (IOServiceGetMatchingServices matchingDict) a].
Proof. exact (proj1 (session_outcomes o fuel _ eq_refl)). Qed.

(** X6.  Lines 34-57.  A session that did not print "Found device"
    returned 1 and made no call other than the matching calls, the
    iterator calls and [printf]: no plug-in is created and no device is
    touched before the device is found. *)
Theorem device_not_found_stops_session (o : oracle) fuel r :
  run fuel o = r ->
  existsb (prints "Found device\n") (trace_of r) = false ->
  r = Return 1 (trace_of r) /\ filter is_beyond_matching (trace_of r) = [].
Proof.
  intros Hrun Hnot.
  destruct (proj1 (proj2 (session_outcomes o fuel r Hrun))) as [Hfound | H].
  - congruence.
  - exact H.
Qed.

Lemma device_not_found_stops_session_witness :
  let r := run 2 (without_device (platform one_pipe)) in
  existsb (prints "Found device\n") (trace_of r) = false /\
  r = Return 1 (trace_of r) /\ filter is_beyond_matching (trace_of r) = [].
Proof.
  split.
  - vm_compute. reflexivity.
  - apply (device_not_found_stops_session
             (without_device (platform one_pipe)) 2 _ eq_refl).
    vm_compute. reflexivity.
Defined.

(** X7.  Lines 121-134.  [main] dereferences a NULL pointer in one
    situation only: the creation of the interface plug-in returned
    [kIOReturnSuccess] and no plug-in.  Line 124 tests the status alone,
    where line 63 tests the pointer too; the interface service is
    released, and the [QueryInterface] of line 131 goes through the NULL
    plug-in. *)
Theorem null_dereference_only_at_interface_plugin (o : oracle) fuel t :
  run fuel o = Fault t ->
  exists t0 service,
    t = t0 ++
        [Ev (IOCreatePlugInInterfaceForService service
               kIOUSBInterfaceUserClientTypeID) (kIOReturnSuccess, NULL);
         Ev (IOObjectRelease service) tt].
Proof.
  intros Hrun.
  destruct (proj1 (proj2 (proj2 (session_outcomes o fuel _ eq_refl))) t Hrun)
    as (service & t0 & ->).
  now exists t0, service.
Qed.

Lemma null_dereference_only_at_interface_plugin_witness :
  let t := trace_of (run 2 (without_interface_plugin (platform one_pipe))) in
  run 2 (without_interface_plugin (platform one_pipe)) = Fault t /\
  exists t0 service,
    t = t0 ++
        [Ev (IOCreatePlugInInterfaceForService service
               kIOUSBInterfaceUserClientTypeID) (kIOReturnSuccess, NULL);
         Ev (IOObjectRelease service) tt].
Proof.
  split.
  - vm_compute. reflexivity.
  - apply (null_dereference_only_at_interface_plugin
             (without_interface_plugin (platform one_pipe)) 2).
    vm_compute. reflexivity.
Defined.

(** X8.  Lines 170-189.  A session that returns 0 wrote the frame [dmx]
    to pipe 1, then to pipe 2, then to pipe 1 again, all through one
    interface handle, and nothing else, whatever the statuses of the
    first two writes.  Either the third write failed, it was the last
    and the session never slept; or the loop wrote the frame 200 times
    and slept 200 times, 25000 microseconds each. *)
Theorem writes_of_a_session (o : oracle) fuel t :
  run fuel o = Return 0 t ->
  exists i k1 k2,
    (exists kr,
       kr <> kIOReturnSuccess /\
       filter is_write t =
         [Ev (WritePipe i 1 dmx) k1; Ev (WritePipe i 2 dmx) k2;
          Ev (WritePipe i 1 dmx) kr] /\
       filter is_sleep t = []) \/
    (exists loop_writes,
       filter is_write t =
         [Ev (WritePipe i 1 dmx) k1; Ev (WritePipe i 2 dmx) k2] ++
         loop_writes /\
       map ev_call loop_writes = repeat (WritePipe i 1 dmx) 200 /\
       map ev_call (filter is_sleep t) = repeat (usleep 25000) 200).
Proof.
  intros Hrun.
  exact (proj1 (proj2 (proj2 (proj2 (session_outcomes o fuel _ eq_refl))))
           t Hrun).
Qed.

Lemma writes_of_a_session_witness :
  let t := trace_of (run 2 (platform stalls_after_first_frame)) in
  run 2 (platform stalls_after_first_frame) = Return 0 t /\
  exists i k1 k2,
    (exists kr,
       kr <> kIOReturnSuccess /\
       filter is_write t =
         [Ev (WritePipe i 1 dmx) k1; Ev (WritePipe i 2 dmx) k2;
          Ev (WritePipe i 1 dmx) kr] /\
       filter is_sleep t = []) \/
    (exists loop_writes,
       filter is_write t =
         [Ev (WritePipe i 1 dmx) k1; Ev (WritePipe i 2 dmx) k2] ++
         loop_writes /\
       map ev_call loop_writes = repeat (WritePipe i 1 dmx) 200 /\
       map ev_call (filter is_sleep t) = repeat (usleep 25000) 200).
Proof.
  split.
  - vm_compute. reflexivity.
  - apply (writes_of_a_session (platform stalls_after_first_frame) 2).
    vm_compute. reflexivity.
Defined.

(** X9.  Lines 53-140.  A session that returns 1 never opened the
    interface, asked for no endpoint or pipe, wrote no frame and did not
    sleep: every [return 1] comes before line 144. *)
Theorem failed_session_leaves_interface_alone (o : oracle) fuel t :
  run fuel o = Return 1 t -> filter is_interface_io t = [].
Proof.
  intros Hrun.
  exact (proj1 (proj2 (proj2 (proj2 (proj2
           (session_outcomes o fuel _ eq_refl))))) t Hrun).
Qed.

Lemma failed_session_leaves_interface_alone_witness :
  let t := trace_of (run 2 (platform refuses_open)) in
  run 2 (platform refuses_open) = Return 1 t /\
  filter is_interface_io t = [].
Proof.
  split.
  - vm_compute. reflexivity.
  - apply (failed_session_leaves_interface_alone (platform refuses_open) 2).
    vm_compute. reflexivity.
Defined.

(** On the platform with one pipe, 256 units of fuel are enough for
    [main] to end. *)
Lemma main_ends_witness :
  let r := run 256 (platform one_pipe) in
  (256 <= 256)%nat /\
  ((exists code t, r = Return code t) \/
   (exists t, r = Fault t) \/
   (exists t i kr n,
      r = OutOfFuel t /\
      In (Ev (GetNumEndpoints i) (kr, n)) t /\ UInt8 n = 255)).
Proof.
  split.
  - apply le_n.
  - exact (main_ends (platform one_pipe) 256 _ (le_n 256) eq_refl).
Defined.

(** The listing of an interface with one endpoint, with two units of
    fuel. *)
Lemma get_endpoint_info_ends_witness :
  0x2500 <> NULL /\
  UInt8 (snd (platform one_pipe [] (GetNumEndpoints 0x2500))) < 255 /\
  exists evs,
    get_endpoint_info 2 0x2500 (platform one_pipe) [] = Next tt ([] ++ evs) /\
    map ev_call (filter is_query evs) =
      map (GetPipeProperties 0x2500)
        (indices 1
           (Z.to_nat
              (UInt8 (snd (platform one_pipe [] (GetNumEndpoints 0x2500)))))).
Proof.
  assert (Hh : 0x2500 <> NULL) by (unfold NULL; discriminate).
  split; [exact Hh|]. split; [reflexivity|].
  apply (get_endpoint_info_ends (platform one_pipe) 0x2500 Hh 2 []).
  - reflexivity.
  - vm_compute. apply le_n.
Defined.
